(** * Scheduled maintenance workflow: the pipeline orchestrator

    A shallow embedding of
    [src/agents/maintenance/workflows/scheduled_maintenance_workflow.py]:
    the class [ScheduledMaintenanceWorkflow] ([__init__] and [run]) and the
    command-line entry point [main], together with the fragment of Python
    they rely on (truthiness, [len], [dict.get], comparison with [0],
    [except Exception], [datetime.isoformat], [datetime.strptime] for the
    format [%Y-%m-%d]).

    The collaborators (database client, cluster analyzer, interpreter,
    scheduler, writer, notifier, date selector) are external: they are a
    parameter of the development, arbitrary stateful functions that may
    raise. So are the command line ([parse_args]) and the terminal
    ([print]). Every call the orchestrator makes is recorded, with its
    outcome. The calls to the logger are left out: the logging module
    handles the errors of its handlers itself, so they neither raise nor
    change the summary or what the collaborators see. *)

From stdpp Require Import gmap strings list fin_maps pretty.
From Stdlib Require Import ZArith NArith Ascii String Lia.

Set Warnings "-register-all".

Local Open Scope string_scope.

(** ** Python values *)

(** The values that cross the boundary between the orchestrator and its
    collaborators. [VObj] is an opaque object (an instance with the default
    truth value, no length, no [get], no ordering); a tuple is a [VList]. *)
Inductive PyVal :=
| VNone
| VBool (b : bool)
| VInt (z : Z)
| VStr (s : string)
| VList (l : list PyVal)
| VDict (d : gmap string PyVal)
| VObj (o : positive).

(** [bool(v)]: what [if v] and [not v] test. *)
Definition truthy (v : PyVal) : bool :=
  match v with
  | VNone => false
  | VBool b => b
  | VInt z => negb (z =? 0)%Z
  | VStr s => negb (String.eqb s "")
  | VList l => match l with [] => false | _ :: _ => true end
  | VDict d => negb (Nat.eqb (size d) 0)
  | VObj _ => true
  end.

(** [type(v).__name__] *)
Definition type_name (v : PyVal) : string :=
  match v with
  | VNone => "NoneType"
  | VBool _ => "bool"
  | VInt _ => "int"
  | VStr _ => "str"
  | VList _ => "list"
  | VDict _ => "dict"
  | VObj _ => "object"
  end.

(** An exception instance: its class and [str(e)]. [exn_class] is the name
    of the class in the hierarchy of the standard library (for a class
    defined elsewhere, of the library class it derives from). *)
Record exn := Exn { exn_class : string; exn_str : string }.

(** The classes that derive from [BaseException] and not from [Exception]:
    an [except Exception] clause lets their instances pass. *)
Definition base_only : list string :=
  ["BaseException"; "SystemExit"; "KeyboardInterrupt"; "GeneratorExit";
   "CancelledError"].

(** [isinstance(e, Exception)] *)
Definition is_Exception (e : exn) : bool :=
  negb (existsb (String.eqb (exn_class e)) base_only).

Inductive Outcome (A : Type) :=
| Return (a : A)
| Raise (e : exn).
Arguments Return {A} a.
Arguments Raise {A} e.

(** [len(v)] *)
Definition py_len (v : PyVal) : Outcome nat :=
  match v with
  | VStr s => Return (String.length s)
  | VList l => Return (List.length l)
  | VDict d => Return (size d)
  | _ => Raise (Exn "TypeError"
                  ("object of type '" ++ type_name v ++ "' has no len()"))
  end.

(** [v.get(key, default)] *)
Definition py_get (v : PyVal) (key : string) (default : PyVal) : Outcome PyVal :=
  match v with
  | VDict d => Return (match d !! key with Some x => x | None => default end)
  | _ => Raise (Exn "AttributeError"
                  ("'" ++ type_name v ++ "' object has no attribute 'get'"))
  end.

(** [v > 0] *)
Definition py_gt0 (v : PyVal) : Outcome bool :=
  match v with
  | VInt z => Return (0 <? z)%Z
  | VBool b => Return b
  | _ => Raise (Exn "TypeError"
                  ("'>' not supported between instances of '"
                     ++ type_name v ++ "' and 'int'"))
  end.

(** ** Timestamps *)

(** A naive [datetime.datetime] (no time zone), as [strptime] builds it. *)
Record datetime := mk_datetime {
  year : N; month : N; day : N;
  hour : N; minute : N; second : N; microsecond : N
}.

Fixpoint zeros (n : nat) : string :=
  match n with
  | O => ""
  | S k => String "0" (zeros k)
  end.

(** ["%0wd" % n] for a natural number [n] *)
Definition fmt_d (w : nat) (n : N) : string :=
  let s := pretty n in zeros (w - String.length s) ++ s.

(** [d.isoformat()]: [YYYY-MM-DDTHH:MM:SS], followed by [.ffffff] when the
    microsecond is not zero. *)
Definition isoformat (d : datetime) : string :=
  fmt_d 4 (year d) ++ "-" ++ fmt_d 2 (month d) ++ "-" ++ fmt_d 2 (day d)
    ++ "T" ++ fmt_d 2 (hour d) ++ ":" ++ fmt_d 2 (minute d) ++ ":"
    ++ fmt_d 2 (second d)
    ++ (if (microsecond d =? 0)%N then "" else "." ++ fmt_d 6 (microsecond d)).

(** [d.replace(hour=h, minute=mi, second=s, microsecond=us)] *)
Definition replace_time (d : datetime) (h mi s us : N) : datetime :=
  {| year := year d; month := month d; day := day d;
     hour := h; minute := mi; second := s; microsecond := us |}.

(** *** [datetime.strptime(data_string, "%Y-%m-%d")]

    The format compiles to the regular expression
    [(\d\d\d\d)-(1[0-2]|0[1-9]|[1-9])-(3[0-1]|[1-2]\d|0[1-9]|[1-9]| [1-9])],
    matched at the start of the text; alternatives are tried in order, with
    backtracking. Text left over after the match, a year 0 and a day that
    the month does not have are errors.

    The model is of ASCII texts, where [\d] is [0] to [9]. On other texts
    the [\d] of CPython also accepts the decimal digits of other scripts,
    which are not modelled: a statement that relies on a rejection takes
    the text to be ASCII ([is_ascii]). A text that is accepted here is made
    of the digits [0] to [9], [-] and the space. *)

Definition digit_of (c : ascii) : option N :=
  let n := N_of_ascii c in
  if ((48 <=? n) && (n <=? 57))%N then Some (n - 48)%N else None.

Definition in_range (lo hi : N) (c : ascii) : option N :=
  match digit_of c with
  | Some k => if ((lo <=? k) && (k <=? hi))%N then Some k else None
  | None => None
  end.

(** every way the month group matches a prefix, in the order tried *)
Definition alts_month (s : string) : list (N * string) :=
  (match s with
   | String "1" (String c r) =>
       match in_range 0 2 c with Some k => [((10 + k)%N, r)] | None => [] end
   | _ => []
   end)
  ++ (match s with
      | String "0" (String c r) =>
          match in_range 1 9 c with Some k => [(k, r)] | None => [] end
      | _ => []
      end)
  ++ (match s with
      | String c r =>
          match in_range 1 9 c with Some k => [(k, r)] | None => [] end
      | _ => []
      end).

(** every way the day group matches a prefix, in the order tried *)
Definition alts_day (s : string) : list (N * string) :=
  (match s with
   | String "3" (String c r) =>
       match in_range 0 1 c with Some k => [((30 + k)%N, r)] | None => [] end
   | _ => []
   end)
  ++ (match s with
      | String a (String c r) =>
          match in_range 1 2 a, digit_of c with
          | Some j, Some k => [((10 * j + k)%N, r)]
          | _, _ => []
          end
      | _ => []
      end)
  ++ (match s with
      | String "0" (String c r) =>
          match in_range 1 9 c with Some k => [(k, r)] | None => [] end
      | _ => []
      end)
  ++ (match s with
      | String c r =>
          match in_range 1 9 c with Some k => [(k, r)] | None => [] end
      | _ => []
      end)
  ++ (match s with
      | String " " (String c r) =>
          match in_range 1 9 c with Some k => [(k, r)] | None => [] end
      | _ => []
      end).

Definition match_year (s : string) : option (N * string) :=
  match s with
  | String a (String b (String c (String d r))) =>
      match digit_of a, digit_of b, digit_of c, digit_of d with
      | Some a, Some b, Some c, Some d =>
          Some ((1000 * a + 100 * b + 10 * c + d)%N, r)
      | _, _, _, _ => None
      end
  | _ => None
  end.

Definition dash (s : string) : option string :=
  match s with
  | String "-" r => Some r
  | _ => None
  end.

(** the first match of the whole pattern: year, month, day, text left over *)
Definition match_ymd (s : string) : option (N * N * N * string) :=
  match match_year s with
  | Some (y, r1) =>
      match dash r1 with
      | Some r2 =>
          head (flat_map (fun '(m, r3) =>
                  match dash r3 with
                  | Some r4 => List.map (fun '(d, r5) => (y, m, d, r5)) (alts_day r4)
                  | None => []
                  end) (alts_month r2))
      | None => None
      end
  | None => None
  end.

Definition is_leap (y : N) : bool :=
  ((y mod 4 =? 0) && (negb (y mod 100 =? 0) || (y mod 400 =? 0)))%N.

Definition days_in_month (y m : N) : N :=
  if (m =? 2)%N then (if is_leap y then 29 else 28)%N
  else if ((m =? 4) || (m =? 6) || (m =? 9) || (m =? 11))%N then 30%N
  else 31%N.

(** [repr(s)] of an ASCII text, the [%r] of the error message: between
    single quotes, or double quotes when the text has a single and no double
    quote; the quote used and the backslash are escaped, control characters
    are written [\t], [\n], [\r] or [\xNN]. *)
Definition double_quote : ascii := ascii_of_N 34.

Fixpoint contains (c : ascii) (s : string) : bool :=
  match s with
  | EmptyString => false
  | String x r => Ascii.eqb x c || contains c r
  end.

Definition hex_digit (n : N) : ascii :=
  if (n <? 10)%N then ascii_of_N (48 + n) else ascii_of_N (87 + n).

Definition repr_char (quote c : ascii) : string :=
  let n := N_of_ascii c in
  if Ascii.eqb c quote || Ascii.eqb c "\" then String "\" (String c "")
  else if (n =? 9)%N then "\t"
  else if (n =? 10)%N then "\n"
  else if (n =? 13)%N then "\r"
  else if ((n <? 32) || (n =? 127))%N then
    String "\" (String "x" (String (hex_digit (n / 16))
                              (String (hex_digit (n mod 16)) "")))
  else String c "".

Fixpoint repr_chars (quote : ascii) (s : string) : string :=
  match s with
  | EmptyString => ""
  | String c r => repr_char quote c ++ repr_chars quote r
  end.

Definition py_repr (s : string) : string :=
  let quote :=
    if contains "'" s && negb (contains double_quote s) then double_quote
    else "'"%char in
  String quote (repr_chars quote s ++ String quote "").

(** a text of ASCII characters *)
Fixpoint is_ascii (s : string) : bool :=
  match s with
  | EmptyString => true
  | String c r => (N_of_ascii c <? 128)%N && is_ascii r
  end.

(** The message of a text that does not match shows the text and the
    format with [%r]. *)
Definition strptime (data_string : string) : Outcome datetime :=
  match match_ymd data_string with
  | None =>
      Raise (Exn "ValueError"
               ("time data " ++ py_repr data_string
                  ++ " does not match format " ++ py_repr "%Y-%m-%d"))
  | Some (y, m, d, rest) =>
      if negb (String.eqb rest "") then
        Raise (Exn "ValueError" ("unconverted data remains: " ++ rest))
      else if (y =? 0)%N then
        Raise (Exn "ValueError" "year 0 is out of range")
      else if (days_in_month y m <? d)%N then
        Raise (Exn "ValueError" "day is out of range for month")
      else Return (mk_datetime y m d 0 0 0 0)
  end.

(** ** The arguments of [run] *)

(** [period_start] and [period_end]: absent ([None]), a timestamp, or text
    that is already formatted. *)
Inductive period :=
| PNone
| PDatetime (d : datetime)
| PStr (s : string).

(** [bool(p)]: a [datetime] is always true, a text is true unless empty. *)
Definition period_truthy (p : period) : bool :=
  match p with
  | PNone => false
  | PDatetime _ => true
  | PStr s => negb (String.eqb s "")
  end.

(** [p.isoformat() if isinstance(p, datetime) else p], for [p] that is not
    [None] *)
Definition period_str (p : period) : string :=
  match p with
  | PDatetime d => isoformat d
  | PStr s => s
  | PNone => ""
  end.

(** the same expression where [p] may be [None]: the value echoed in the
    summary *)
Definition period_echo (p : period) : option string :=
  match p with
  | PNone => None
  | _ => Some (period_str p)
  end.

(** ** Filter construction (lines 104-123 of the source) *)

Definition build_filters (period_start period_end : period) : gmap string string :=
  let filters : gmap string string := ∅ in
  if period_truthy period_start && period_truthy period_end then
    let start_date_str := period_str period_start in
    let end_date_str := period_str period_end in
    let filters := <["resolved_at.gte" := start_date_str]> filters in
    let filters := <["resolved_at.lte" := end_date_str]> filters in
    filters
  else if period_truthy period_start then
    let start_date_str := period_str period_start in
    <["resolved_at.gte" := start_date_str]> filters
  else if period_truthy period_end then
    let end_date_str := period_str period_end in
    <["resolved_at.lte" := end_date_str]> filters
  else filters.

(** ** Calls to collaborators *)

(** What a [print] statement of [main] writes: the statement, and the
    values its text is made of. *)
Inductive PrintLine :=
| PrintSummaryHeader
| PrintPeriod (period_start period_end : datetime)
| PrintStatus (analysis_success : bool)
| PrintTasksCreated (tasks_created : PyVal)
| PrintErrorsHeader
| PrintError (error : string)
| PrintComplete
| PrintFailure (error : string).

(** One constructor per call site of the source; [self] is the receiver. *)
Inductive Call :=
| CallSupabaseClient
| CallMaintenanceTaskScheduler (db : PyVal)
| CallMaintenanceTaskWriter (db : PyVal)
| CallMaintenanceNotifier
| CallQueryTable (self : PyVal) (table_name columns : string)
    (filters : gmap string string) (limit : Z)
| CallRunAnalysis (records : PyVal)
| CallInterpretResults (analysis_results : PyVal)
| CallScheduleMaintenanceTasks (self machines_to_service : PyVal)
| CallWriteMaintenanceTasks (self schedule_results scheduler : PyVal)
| CallSendNotifications (self machines_to_service : PyVal)
| CallImportDateSelector
| CallGetDateRange (mode : string)
| CallParseArgs
| CallPrint (line : PrintLine).

Record Event := { ev_call : Call; ev_outcome : Outcome PyVal }.

Definition is_query (c : Call) : bool :=
  match c with CallQueryTable _ _ _ _ _ => true | _ => false end.
Definition is_analysis (c : Call) : bool :=
  match c with CallRunAnalysis _ => true | _ => false end.
Definition is_interpret (c : Call) : bool :=
  match c with CallInterpretResults _ => true | _ => false end.
Definition is_schedule (c : Call) : bool :=
  match c with CallScheduleMaintenanceTasks _ _ => true | _ => false end.
Definition is_write (c : Call) : bool :=
  match c with CallWriteMaintenanceTasks _ _ _ => true | _ => false end.
Definition is_notify (c : Call) : bool :=
  match c with CallSendNotifications _ _ => true | _ => false end.

(** ** The run summary and the instance *)

(** The dictionary [result_summary]. [tasks_created] holds whatever the
    writer reported, so it is a Python value. *)
Record Summary := {
  analysis_success : bool;
  tasks_created : PyVal;
  errors : list string;
  period_start : option string;
  period_end : option string
}.

Definition append_error (msg : string) (rs : Summary) : Summary :=
  {| analysis_success := analysis_success rs;
     tasks_created := tasks_created rs;
     errors := errors rs ++ [msg];
     period_start := period_start rs;
     period_end := period_end rs |}.

Definition set_analysis_success (b : bool) (rs : Summary) : Summary :=
  {| analysis_success := b;
     tasks_created := tasks_created rs;
     errors := errors rs;
     period_start := period_start rs;
     period_end := period_end rs |}.

Definition set_tasks_created (v : PyVal) (rs : Summary) : Summary :=
  {| analysis_success := analysis_success rs;
     tasks_created := v;
     errors := errors rs;
     period_start := period_start rs;
     period_end := period_end rs |}.

(** The attributes of a [ScheduledMaintenanceWorkflow] instance; [None] is
    an attribute that has not been assigned. *)
Record Self := {
  db : option PyVal;
  scheduler : option PyVal;
  writer : option PyVal;
  notifier : option PyVal
}.

Definition empty_self : Self :=
  {| db := None; scheduler := None; writer := None; notifier := None |}.

Definition set_db (v : PyVal) (o : Self) : Self :=
  {| db := Some v; scheduler := scheduler o; writer := writer o;
     notifier := notifier o |}.
Definition set_scheduler (v : PyVal) (o : Self) : Self :=
  {| db := db o; scheduler := Some v; writer := writer o;
     notifier := notifier o |}.
Definition set_writer (v : PyVal) (o : Self) : Self :=
  {| db := db o; scheduler := scheduler o; writer := Some v;
     notifier := notifier o |}.
Definition set_notifier (v : PyVal) (o : Self) : Self :=
  {| db := db o; scheduler := scheduler o; writer := writer o;
     notifier := Some v |}.

(** The command-line arguments [main] reads. *)
Record Args := {
  start_date : option string;
  end_date : option string;
  mode : string
}.

(** What [main] returns: the summary of [run], or the dictionary
    [{'status': 'failed', 'error': str(e)}]. *)
Inductive MainResult :=
| MainSummary (result : Summary)
| MainFailed (error : string).

(** the namespace [parse_args] returns, as a value *)
Definition args_value (a : Args) : PyVal :=
  let opt (o : option string) :=
    match o with Some s => VStr s | None => VNone end in
  VDict (<["start_date" := opt (start_date a)]>
           (<["end_date" := opt (end_date a)]>
              (<["mode" := VStr (mode a)]> ∅))).

(** [bool(a)] for an optional argument *)
Definition arg_truthy (a : option string) : bool :=
  match a with
  | Some s => negb (String.eqb s "")
  | None => false
  end.

(** ** The process, and the monad of the embedding *)

Section Workflow.

Context {W : Type}.

(** What collaborators can read and change: the environment variables and
    their own state [W] (database, scheduler, writer, notifier, terminal). *)
Record Proc := { environ : gmap string string; world : W }.

(** The process together with the record of the calls made so far, the
    oldest first. *)
Record Global := { proc : Proc; calls : list Event }.

(** A computation with a frame [L] of objects it mutates in place
    ([result_summary] in [run], [self] in [__init__]): it returns or raises,
    and in both cases the mutations made so far remain. *)
Definition M (L A : Type) : Type := L → Global → Outcome A * L * Global.

Definition ret {L A} (a : A) : M L A := fun l g => (Return a, l, g).

Definition raise {L A} (e : exn) : M L A := fun l g => (Raise e, l, g).

Definition bind {L A B} (m : M L A) (k : A → M L B) : M L B :=
  fun l g =>
    match m l g with
    | (Return a, l', g') => k a l' g'
    | (Raise e, l', g') => (Raise e, l', g')
    end.

Notation "x <- m ;; k" := (bind m (fun x => k))
  (at level 100, m at next level, right associativity).
Notation "m ;; k" := (bind m (fun _ => k))
  (at level 100, right associativity).

(** [try: body except Exception as e: handler e]. An exception that is
    not an instance of [Exception] is not caught. *)
Definition try_except {L A} (body : M L A) (handler : exn → M L A) : M L A :=
  fun l g =>
    match body l g with
    | (Return a, l', g') => (Return a, l', g')
    | (Raise e, l', g') =>
        if is_Exception e then handler e l' g' else (Raise e, l', g')
    end.

(** [for x in xs: body x] *)
Fixpoint for_each {L A} (xs : list A) (body : A → M L unit) : M L unit :=
  match xs with
  | [] => ret tt
  | x :: rest => bind (body x) (fun _ => for_each rest body)
  end.

Definition get {L} : M L L := fun l g => (Return l, l, g).

Definition modify {L} (f : L → L) : M L unit := fun l g => (Return tt, f l, g).

(** the result of a primitive operation *)
Definition lift {L A} (o : Outcome A) : M L A := fun l g => (o, l, g).

(** Run [m] on a frame of its own, starting from [l0]; the frame it leaves
    is returned. An exception passes through and the frame is dropped. *)
Definition with_frame {L L'} (l0 : L') (m : M L' unit) : M L L' :=
  fun l g =>
    match m l0 g with
    | (Return _, l', g') => (Return l', l, g')
    | (Raise e, _, g') => (Raise e, l, g')
    end.

(** attribute access [self.name] *)
Definition getattr {L} (name : string) (a : option PyVal) : M L PyVal :=
  match a with
  | Some v => ret v
  | None =>
      raise (Exn "AttributeError"
               ("'ScheduledMaintenanceWorkflow' object has no attribute '"
                  ++ name ++ "'"))
  end.

Fixpoint has_nul (s : string) : bool :=
  match s with
  | EmptyString => false
  | String c r => (N_of_ascii c =? 0)%N || has_nul r
  end.

(** [os.environ[key] = v] *)
Definition setenv {L} (key : string) (v : PyVal) : M L unit :=
  fun l g =>
    match v with
    | VStr s =>
        if has_nul s then
          (Raise (Exn "ValueError" "embedded null byte"), l, g)
        else
          (Return tt, l,
           {| proc := {| environ := <[key := s]> (environ (proc g));
                         world := world (proc g) |};
              calls := calls g |})
    | _ =>
        (Raise (Exn "TypeError" ("str expected, not " ++ type_name v)), l, g)
    end.

(** *** The collaborators

    [ext c] is what the call [c] does: it returns a value or raises, and
    changes the process. [get_date_range] is [DateSelector.get_date_range],
    which returns a pair of texts. [parse_args] is [parser.parse_args()],
    which returns the arguments or exits. [SUPABASE_URL] and [SUPABASE_KEY]
    are the two values imported from the settings module. *)
Variable ext : Call → Proc → Outcome PyVal * Proc.
Variable get_date_range : string → Proc → Outcome (string * string) * Proc.
Variable parse_args : Proc → Outcome Args * Proc.
Variables SUPABASE_URL SUPABASE_KEY : PyVal.

(** a call to a collaborator, recorded with its outcome *)
Definition invoke {L} (c : Call) : M L PyVal :=
  fun l g =>
    let '(o, p) := ext c (proc g) in
    (o, l, {| proc := p;
              calls := calls g ++ [{| ev_call := c; ev_outcome := o |}] |}).

Definition invoke_get_date_range {L} (mode : string) : M L (string * string) :=
  fun l g =>
    let '(o, p) := get_date_range mode (proc g) in
    (o, l,
     {| proc := p;
        calls := calls g ++
          [{| ev_call := CallGetDateRange mode;
              ev_outcome := match o with
                            | Return (a, b) => Return (VList [VStr a; VStr b])
                            | Raise e => Raise e
                            end |}] |}).

Definition invoke_parse_args {L} : M L Args :=
  fun l g =>
    let '(o, p) := parse_args (proc g) in
    (o, l,
     {| proc := p;
        calls := calls g ++
          [{| ev_call := CallParseArgs;
              ev_outcome := match o with
                            | Return a => Return (args_value a)
                            | Raise e => Raise e
                            end |}] |}).

(** [print(...)] *)
Definition print {L} (line : PrintLine) : M L unit :=
  bind (invoke (CallPrint line)) (fun _ => ret tt).

(** ** [ScheduledMaintenanceWorkflow.__init__] (lines 53-71) *)

Definition __init__ : M Self unit :=
  try_except
    (if negb (truthy SUPABASE_URL) || negb (truthy SUPABASE_KEY) then
       raise (Exn "ValueError"
                "SUPABASE_URL and SUPABASE_KEY must be set in settings")
     else
       setenv "SUPABASE_URL" SUPABASE_URL ;;
       setenv "SUPABASE_KEY" SUPABASE_KEY ;;
       v <- invoke CallSupabaseClient ;;
       modify (set_db v) ;;
       self <- get ;;
       self_db <- getattr "db" (db self) ;;
       v <- invoke (CallMaintenanceTaskScheduler self_db) ;;
       modify (set_scheduler v) ;;
       self <- get ;;
       self_db <- getattr "db" (db self) ;;
       v <- invoke (CallMaintenanceTaskWriter self_db) ;;
       modify (set_writer v) ;;
       v <- invoke CallMaintenanceNotifier ;;
       modify (set_notifier v))
    (fun e => raise e).

(** The expression [ScheduledMaintenanceWorkflow()]: a new instance without
    attributes is passed to [__init__]; the caller receives it only when
    [__init__] returns. *)
Definition ScheduledMaintenanceWorkflow {L} : M L Self :=
  with_frame empty_self __init__.

(** ** [ScheduledMaintenanceWorkflow.run] (lines 73-180) *)

Definition msg_no_records : string :=
  "No machine records found in database for the specified period".
Definition msg_no_results : string :=
  "No results from machine clustering analysis".
Definition msg_prefix : string := "Error in workflow execution: ".

(** the dictionary built at lines 88-94 *)
Definition initial_summary (period_start period_end : period) : Summary :=
  {| analysis_success := false;
     tasks_created := VInt 0;
     errors := [];
     period_start := period_echo period_start;
     period_end := period_echo period_end |}.

(** The body of the [try] block. Each [return result_summary] of the source
    ends a branch here; the value returned is the frame. *)
Definition run_body (self : Self) (period_start period_end : period)
  : M Summary unit :=
  let filters := build_filters period_start period_end in
  self_db <- getattr "db" (db self) ;;
  records <- invoke (CallQueryTable self_db "downtime_detail" "*" filters 1000) ;;
  if negb (truthy records) then
    modify (append_error msg_no_records)
  else
    lift (py_len records) ;;
    analysis_results <- invoke (CallRunAnalysis records) ;;
    if negb (truthy analysis_results) then
      modify (append_error msg_no_results)
    else
      modify (set_analysis_success true) ;;
      machines_to_service <- invoke (CallInterpretResults analysis_results) ;;
      if negb (truthy machines_to_service) then
        ret tt
      else
        self_scheduler <- getattr "scheduler" (scheduler self) ;;
        schedule_results <-
          invoke (CallScheduleMaintenanceTasks self_scheduler machines_to_service) ;;
        self_writer <- getattr "writer" (writer self) ;;
        self_scheduler <- getattr "scheduler" (scheduler self) ;;
        write_results <-
          invoke (CallWriteMaintenanceTasks self_writer schedule_results
                    self_scheduler) ;;
        n <- lift (py_get write_results "tasks_created" (VInt 0)) ;;
        modify (set_tasks_created n) ;;
        result_summary <- get ;;
        has_tasks <- lift (py_gt0 (tasks_created result_summary)) ;;
        if has_tasks : bool then
          self_notifier <- getattr "notifier" (notifier self) ;;
          invoke (CallSendNotifications self_notifier machines_to_service) ;;
          ret tt
        else
          ret tt.

Definition run {L} (self : Self) (period_start period_end : period)
  : M L Summary :=
  with_frame (initial_summary period_start period_end)
    (try_except
       (run_body self period_start period_end)
       (fun e => modify (append_error (msg_prefix ++ exn_str e)))).

(** ** [main] (lines 183-239)

    The arguments are parsed before the [try] block, so what [parse_args]
    raises leaves [main]; so does what the [print] of the handler raises. *)
Definition main : M unit MainResult :=
  args <- invoke_parse_args ;;
  try_except
    (invoke CallImportDateSelector ;;
     dates <-
       (if arg_truthy (start_date args) && arg_truthy (end_date args) then
          period_start <- lift (strptime (default "" (start_date args))) ;;
          period_end <- lift (strptime (default "" (end_date args))) ;;
          ret (period_start, period_end)
        else
          strs <- invoke_get_date_range (mode args) ;;
          period_start <- lift (strptime (fst strs)) ;;
          period_end <- lift (strptime (snd strs)) ;;
          ret (period_start, period_end)) ;;
     let period_start := fst dates in
     let period_end := replace_time (snd dates) 23 59 59 999999 in
     wf <- ScheduledMaintenanceWorkflow ;;
     result <- run wf (PDatetime period_start) (PDatetime period_end) ;;
     print PrintSummaryHeader ;;
     print (PrintPeriod period_start period_end) ;;
     print (PrintStatus (analysis_success result)) ;;
     print (PrintTasksCreated (tasks_created result)) ;;
     (match errors result with
      | [] => ret tt
      | _ :: _ =>
          print PrintErrorsHeader ;;
          for_each (errors result) (fun error => print (PrintError error))
      end) ;;
     print PrintComplete ;;
     ret (MainSummary result))
    (fun e =>
       print (PrintFailure (exn_str e)) ;;
       ret (MainFailed (exn_str e))).

End Workflow.

(** ** Scripted collaborators

    Collaborators that answer every call with a fixed outcome and keep no
    state, for evaluating the workflow on concrete scenarios. *)

Definition scripted
    (records analysis machines schedule write notify : Outcome PyVal)
  : Call → @Proc unit → Outcome PyVal * @Proc unit :=
  fun c p =>
    match c with
    | CallSupabaseClient => (Return (VObj 1), p)
    | CallMaintenanceTaskScheduler _ => (Return (VObj 2), p)
    | CallMaintenanceTaskWriter _ => (Return (VObj 3), p)
    | CallMaintenanceNotifier => (Return (VObj 4), p)
    | CallQueryTable _ _ _ _ _ => (records, p)
    | CallRunAnalysis _ => (analysis, p)
    | CallInterpretResults _ => (machines, p)
    | CallScheduleMaintenanceTasks _ _ => (schedule, p)
    | CallWriteMaintenanceTasks _ _ _ => (write, p)
    | CallSendNotifications _ _ => (notify, p)
    | CallImportDateSelector => (Return VNone, p)
    | CallGetDateRange _ => (Return VNone, p)
    | CallParseArgs => (Return VNone, p)
    | CallPrint _ => (Return VNone, p)
    end.

(** a command line that gives the arguments [args] *)
Definition scripted_args (args : Outcome Args)
  : @Proc unit → Outcome Args * @Proc unit :=
  fun p => (args, p).

Definition scripted_date_range (dates : Outcome (string * string))
  : string → @Proc unit → Outcome (string * string) * @Proc unit :=
  fun _ p => (dates, p).

(** an instance as [__init__] leaves it with the scripted constructors *)
Definition built_self : Self :=
  {| db := Some (VObj 1); scheduler := Some (VObj 2);
     writer := Some (VObj 3); notifier := Some (VObj 4) |}.

Definition start_global : @Global unit :=
  {| proc := {| environ := ∅; world := tt |}; calls := [] |}.

Definition some_records (n : nat) : PyVal :=
  VList (replicate n (VDict {[ "machine_id" := VStr "M-1" ]})).

Definition some_analysis : PyVal :=
  VDict {[ "clusters" := VList [VInt 0; VInt 1] ]}.

Definition some_machines (n : nat) : PyVal :=
  VList (replicate n (VDict {[ "machine_id" := VStr "M-1" ]})).

Definition tasks_written (n : Z) : PyVal :=
  VDict {[ "tasks_created" := VInt n ]}.


(** the scenario in which every stage returns and three tasks are written *)
Definition three_tasks : Call → @Proc unit → Outcome PyVal * @Proc unit :=
  scripted (Return (some_records 3)) (Return some_analysis)
    (Return (some_machines 2)) (Return (VObj 7))
    (Return (tasks_written 3)) (Return VNone).

(** the same scenario on a terminal that is closed: the first line of the
    summary cannot be printed *)
Definition terminal_closed : Call → @Proc unit → Outcome PyVal * @Proc unit :=
  fun c p =>
    match c with
    | CallPrint PrintSummaryHeader =>
        (Raise (Exn "BrokenPipeError" "[Errno 32] Broken pipe"), p)
    | _ => three_tasks c p
    end.

Definition three_tasks_calls : list Event :=
  [{| ev_call := CallQueryTable (VObj 1) "downtime_detail" "*" ∅ 1000;
      ev_outcome := Return (some_records 3) |};
   {| ev_call := CallRunAnalysis (some_records 3);
      ev_outcome := Return some_analysis |};
   {| ev_call := CallInterpretResults some_analysis;
      ev_outcome := Return (some_machines 2) |};
   {| ev_call := CallScheduleMaintenanceTasks (VObj 2) (some_machines 2);
      ev_outcome := Return (VObj 7) |};
   {| ev_call := CallWriteMaintenanceTasks (VObj 3) (VObj 7) (VObj 2);
      ev_outcome := Return (tasks_written 3) |};
   {| ev_call := CallSendNotifications (VObj 4) (some_machines 2);
      ev_outcome := Return VNone |}].

Definition three_tasks_summary : Summary :=
  {| analysis_success := true;
     tasks_created := VInt 3;
     errors := [];
     period_start := None;
     period_end := None |}.


(** a scripted collaborator that must not be reached *)
Definition no_call : Outcome PyVal :=
  Raise (Exn "AssertionError" "unexpected call").

(** ** Predicates used in the statements *)

(** the events of a gate that found nothing: a query, an analysis or an
    interpretation that returned a false value *)
Definition empty_gate (ev : Event) : bool :=
  (is_query (ev_call ev) || is_analysis (ev_call ev) || is_interpret (ev_call ev))
  && match ev_outcome ev with
     | Return v => negb (truthy v)
     | Raise _ => false
     end.

(** a call with a scheduling, persistence or notification effect *)
Definition acts (ev : Event) : bool :=
  is_schedule (ev_call ev) || is_write (ev_call ev) || is_notify (ev_call ev).

(** [d.date().isoformat()]: the day of a timestamp, [YYYY-MM-DD] *)
Definition isoformat_date (d : datetime) : string :=
  fmt_d 4 (year d) ++ "-" ++ fmt_d 2 (month d) ++ "-" ++ fmt_d 2 (day d).

Definition is_selector (c : Call) : bool :=
  match c with CallGetDateRange _ => true | _ => false end.

(** the days of the calendar [datetime] accepts *)
Definition valid_date (y m d : N) : Prop :=
  (1 ≤ y ≤ 9999 ∧ 1 ≤ m ≤ 12 ∧ 1 ≤ d ≤ days_in_month y m)%N.

(** the month and day groups of the pattern, on the text after the year *)
Definition match_md (r1 : string) : option (N * N * string) :=
  match dash r1 with
  | Some r2 =>
      head (flat_map (fun '(m, r3) =>
              match dash r3 with
              | Some r4 => List.map (fun '(d, r5) => (m, d, r5)) (alts_day r4)
              | None => []
              end) (alts_month r2))
  | None => None
  end.

(** the checks run over every year and every day of a month: the text
    written with [fmt_d] is matched entirely and gives the number back *)
Definition year_reads_back (y : N) : bool :=
  match match_year (fmt_d 4 y) with
  | Some (y', EmptyString) => (y' =? y)%N
  | _ => false
  end.

Definition day_reads_back (md : N * N) : bool :=
  match match_md ("-" ++ fmt_d 2 (fst md) ++ "-" ++ fmt_d 2 (snd md)) with
  | Some (m', d', EmptyString) => ((m' =? fst md) && (d' =? snd md))%N
  | _ => false
  end.

(** How an exception [e] leaves a function whose calls were [evs]: [e] is
    not an instance of [Exception], and the last call raised it. *)
Definition passed_on (e : exn) (evs : list Event) : Prop :=
  is_Exception e = false
  ∧ ∃ c pre, evs = (pre ++ [{| ev_call := c; ev_outcome := Raise e |}])%list.

(** How a function whose calls were [evs] ends: it returns, or it passes on
    an exception of its last call that is not an [Exception]. *)
Definition returns_or_passes_on {A} (res : Outcome A) (evs : list Event)
  : Prop :=
  match res with
  | Return _ => True
  | Raise e => passed_on e evs
  end.


(** a call that raised *)
Definition raised (ev : Event) : bool :=
  match ev_outcome ev with
  | Raise _ => true
  | Return _ => false
  end.

(** an endpoint of the window that is present: a timestamp, or a text that
    is not empty *)
Definition present (p : period) : Prop :=
  match p with
  | PNone => False
  | PDatetime _ => True
  | PStr s => s ≠ ""
  end.

(** ** Properties *)

Section Properties.

Context {W : Type}.
Variable ext : Call → @Proc W → Outcome PyVal * @Proc W.

Local Open Scope list_scope.

(** the primitive operations raise [TypeError] or [AttributeError] only *)
Lemma py_len_Exception (v : PyVal) (e : exn) :
  py_len v = Raise e → is_Exception e = true.
Proof. destruct v; intros H; inversion H; reflexivity. Qed.

Lemma py_get_Exception (v : PyVal) (k : string) (d : PyVal) (e : exn) :
  py_get v k d = Raise e → is_Exception e = true.
Proof. destruct v; intros H; inversion H; reflexivity. Qed.

Lemma py_gt0_Exception (v : PyVal) (e : exn) :
  py_gt0 v = Raise e → is_Exception e = true.
Proof. destruct v; intros H; inversion H; reflexivity. Qed.

Ltac absurd_internal :=
  match goal with
  | H : py_len _ = Raise ?e, H' : is_Exception ?e = false |- _ =>
      rewrite (py_len_Exception _ _ H) in H'; discriminate H'
  | H : py_get _ _ _ = Raise ?e, H' : is_Exception ?e = false |- _ =>
      rewrite (py_get_Exception _ _ _ _ H) in H'; discriminate H'
  | H : py_gt0 _ = Raise ?e, H' : is_Exception ?e = false |- _ =>
      rewrite (py_gt0_Exception _ _ H) in H'; discriminate H'
  end.

Ltac unfold_run :=
  unfold run, with_frame, try_except, run_body, bind, invoke, getattr, lift,
    modify, get, ret, raise.

Ltac step :=
  match goal with
  | |- context [is_Exception (Exn ?c ?m)] =>
      let b := eval vm_compute in (is_Exception (Exn c "")) in
      change (is_Exception (Exn c m)) with b
  | |- context [ext ?c ?p] =>
      let o := fresh "o" in
      let p' := fresh "p" in
      let E := fresh "E" in
      destruct (ext c p) as [o p'] eqn:E; destruct o
  | |- context [truthy ?v] => destruct (truthy v) eqn:?
  | |- context [py_len ?v] => destruct (py_len v) eqn:?
  | |- context [py_get ?v ?k ?d] => destruct (py_get v k d) eqn:?
  | |- context [py_gt0 ?v] => destruct (py_gt0 v) eqn:?
  | |- context [match ?a with Some _ => _ | None => _ end] => destruct a eqn:?
  | |- context [if ?b then _ else _] => destruct b eqn:?
  end; cbn [fst snd proc calls environ world negb append_error
              set_analysis_success set_tasks_created errors analysis_success
              tasks_created initial_summary period_start period_end
              db scheduler writer notifier set_db set_scheduler set_writer
              set_notifier empty_self] in *;
       try absurd_internal.

(** evaluation along one path, with the outcomes of the calls given *)
Ltac run_with H :=
  rewrite H;
  cbn beta iota;
  cbn [fst snd proc calls negb truthy py_len append_error
         set_analysis_success set_tasks_created errors analysis_success
         tasks_created initial_summary period_start period_end].

Ltac tidy_calls := rewrite <- ?app_assoc; cbn [app].

(** the events before the last, and the last *)
Ltac show_passed_on :=
  cbn beta iota; unfold returns_or_passes_on; cbn beta iota;
  match goal with
  | |- passed_on _ ?evs =>
      split; [assumption | eexists _, (removelast evs); reflexivity]
  end.

(** C2. When the query of table [downtime_detail] (all columns, the built
    filters, limit 1000) returns a false value (an empty list, [None]),
    [run] makes no other call and returns the summary with
    [analysis_success = False], [tasks_created = 0] and the single error
    "No machine records found in database for the specified period". *)
Theorem C2_no_records_terminates
    {L} (self : Self) (ps pe : period) (l : L) (g : Global)
    (d records : PyVal) (p1 : Proc) :
  db self = Some d →
  ext (CallQueryTable d "downtime_detail" "*" (build_filters ps pe) 1000)
      (proc g) = (Return records, p1) →
  truthy records = false →
  run ext self ps pe l g =
    (Return {| analysis_success := false;
               tasks_created := VInt 0;
               errors := ["No machine records found in database for the specified period"];
               period_start := period_echo ps;
               period_end := period_echo pe |},
     l,
     {| proc := p1;
        calls := calls g ++
          [{| ev_call := CallQueryTable d "downtime_detail" "*"
                           (build_filters ps pe) 1000;
              ev_outcome := Return records |}] |}).
Proof.
  intros Hdb Hq Hempty. unfold_run.
  rewrite Hdb. run_with Hq. rewrite Hempty. reflexivity.
Qed.

(** C3. When the query returns a non-empty list of records: if the analyzer
    returns a false value, [run] stops there with [analysis_success = False]
    and the single error "No results from machine clustering analysis";
    if it returns a true value, the interpreter is the next call and the
    summary returned has [analysis_success = True], whatever the
    interpreter and the later stages do. (No summary is returned only when
    one of them raises an exception that is not an [Exception].) *)
Theorem C3_analysis_gate
    {L} (self : Self) (ps pe : period) (l : L) (g : Global)
    (d r analysis : PyVal) (rs : list PyVal) (p1 p2 : Proc) :
  let q := CallQueryTable d "downtime_detail" "*" (build_filters ps pe) 1000 in
  let records := VList (r :: rs) in
  db self = Some d →
  ext q (proc g) = (Return records, p1) →
  ext (CallRunAnalysis records) p1 = (Return analysis, p2) →
  (truthy analysis = false →
   run ext self ps pe l g =
     (Return {| analysis_success := false;
                tasks_created := VInt 0;
                errors := ["No results from machine clustering analysis"];
                period_start := period_echo ps;
                period_end := period_echo pe |},
      l,
      {| proc := p2;
         calls := calls g ++
           [{| ev_call := q; ev_outcome := Return records |};
            {| ev_call := CallRunAnalysis records;
               ev_outcome := Return analysis |}] |}))
  ∧ (truthy analysis = true →
     ∃ (res : Outcome Summary) (p' : Proc) (o : Outcome PyVal)
       (later : list Event),
       run ext self ps pe l g =
         (res, l,
          {| proc := p';
             calls := calls g ++
               [{| ev_call := q; ev_outcome := Return records |};
                {| ev_call := CallRunAnalysis records;
                   ev_outcome := Return analysis |};
                {| ev_call := CallInterpretResults analysis;
                   ev_outcome := o |}] ++ later |})
       ∧ match res with
         | Return s => analysis_success s = true
         | Raise e =>
             passed_on e
               ([{| ev_call := q; ev_outcome := Return records |};
                 {| ev_call := CallRunAnalysis records;
                    ev_outcome := Return analysis |};
                 {| ev_call := CallInterpretResults analysis;
                    ev_outcome := o |}] ++ later)
         end).
Proof.
  intros q records Hdb Hq Ha. subst q records. split; intros Ht.
  - unfold_run. rewrite Hdb. run_with Hq. run_with Ha. rewrite Ht.
    cbn. tidy_calls. reflexivity.
  - unfold_run. rewrite Hdb. run_with Hq. run_with Ha. rewrite Ht.
    cbn [negb].
    repeat step; tidy_calls;
      eexists _, _, _, _; (split; [reflexivity |]);
      first [reflexivity | show_passed_on].
Qed.

(** C4. When the analyzer returns a true value and the interpreter returns
    a false value (an empty list, [None]), [run] stops after the
    interpreter and returns the summary with [analysis_success = True],
    [tasks_created = 0] and no error. *)
Theorem C4_no_machines_is_success
    {L} (self : Self) (ps pe : period) (l : L) (g : Global)
    (d r analysis machines : PyVal) (rs : list PyVal) (p1 p2 p3 : Proc) :
  let q := CallQueryTable d "downtime_detail" "*" (build_filters ps pe) 1000 in
  let records := VList (r :: rs) in
  db self = Some d →
  ext q (proc g) = (Return records, p1) →
  ext (CallRunAnalysis records) p1 = (Return analysis, p2) →
  truthy analysis = true →
  ext (CallInterpretResults analysis) p2 = (Return machines, p3) →
  truthy machines = false →
  run ext self ps pe l g =
    (Return {| analysis_success := true;
               tasks_created := VInt 0;
               errors := [];
               period_start := period_echo ps;
               period_end := period_echo pe |},
     l,
     {| proc := p3;
        calls := calls g ++
          [{| ev_call := q; ev_outcome := Return records |};
           {| ev_call := CallRunAnalysis records;
              ev_outcome := Return analysis |};
           {| ev_call := CallInterpretResults analysis;
              ev_outcome := Return machines |}] |}).
Proof.
  intros q records Hdb Hq Ha Hta Hi Htm. subst q records. unfold_run.
  rewrite Hdb. run_with Hq. run_with Ha. run_with Hta. run_with Hi.
  rewrite Htm. cbn. tidy_calls. reflexivity.
Qed.

(** The path through all the stages: every collaborator up to the writer
    returns, the count read from the write result is [v] and [v > 0]
    evaluates to [b]. The notifier is called when [b] holds; [o] is its
    outcome. *)
Lemma run_through_write
    {L} (self : Self) (ps pe : period) (l : L) (g : Global)
    (d sch wr nt r analysis machines schedule_results write_results v : PyVal)
    (rs : list PyVal) (b : bool) (o : Outcome PyVal) (p1 p2 p3 p4 p5 p6 : Proc) :
  let q := CallQueryTable d "downtime_detail" "*" (build_filters ps pe) 1000 in
  let records := VList (r :: rs) in
  db self = Some d → scheduler self = Some sch →
  writer self = Some wr → notifier self = Some nt →
  ext q (proc g) = (Return records, p1) →
  ext (CallRunAnalysis records) p1 = (Return analysis, p2) →
  truthy analysis = true →
  ext (CallInterpretResults analysis) p2 = (Return machines, p3) →
  truthy machines = true →
  ext (CallScheduleMaintenanceTasks sch machines) p3
    = (Return schedule_results, p4) →
  ext (CallWriteMaintenanceTasks wr schedule_results sch) p4
    = (Return write_results, p5) →
  py_get write_results "tasks_created" (VInt 0) = Return v →
  py_gt0 v = Return b →
  ext (CallSendNotifications nt machines) p5 = (o, p6) →
  let summary errs :=
    {| analysis_success := true;
       tasks_created := v;
       errors := errs;
       period_start := period_echo ps;
       period_end := period_echo pe |} in
  run ext self ps pe l g =
    ((if b then
        match o with
        | Return _ => Return (summary [])
        | Raise e =>
            if is_Exception e then
              Return (summary [(msg_prefix ++ exn_str e)%string])
            else Raise e
        end
      else Return (summary [])),
     l,
     {| proc := if b then p6 else p5;
        calls := calls g ++
          [{| ev_call := q; ev_outcome := Return records |};
           {| ev_call := CallRunAnalysis records;
              ev_outcome := Return analysis |};
           {| ev_call := CallInterpretResults analysis;
              ev_outcome := Return machines |};
           {| ev_call := CallScheduleMaintenanceTasks sch machines;
              ev_outcome := Return schedule_results |};
           {| ev_call := CallWriteMaintenanceTasks wr schedule_results sch;
              ev_outcome := Return write_results |}]
          ++ (if b then
                [{| ev_call := CallSendNotifications nt machines;
                    ev_outcome := o |}]
              else []) |}).
Proof.
  intros q records Hdb Hsch Hwr Hnt Hq Ha Hta Hi Htm Hs Hw Hget Hgt Hn summary.
  subst q records summary. unfold_run.
  rewrite Hdb. run_with Hq. run_with Ha. run_with Hta. run_with Hi.
  run_with Htm. run_with Hsch. run_with Hs. run_with Hwr. run_with Hw.
  run_with Hget. run_with Hgt.
  destruct b.
  - run_with Hnt. run_with Hn.
    destruct o as [vn | e]; [| destruct (is_Exception e)];
      cbn; tidy_calls; reflexivity.
  - cbn. tidy_calls. reflexivity.
Qed.

(** C5. On a run that reaches the schedule and write stage, where the
    write result is a dictionary whose [tasks_created] is the integer [n]
    (or is absent, and then [n = 0]): the summary's [tasks_created] is [n],
    and after the writer the only call is one [send_notifications] with the
    interpreted machine list when [n > 0], and no call at all otherwise.
    (No summary is returned only when the notifier raises an exception that
    is not an [Exception].) *)
Theorem C5_tasks_created_and_notification
    {L} (self : Self) (ps pe : period) (l : L) (g : Global)
    (d sch wr nt r analysis machines schedule_results : PyVal)
    (rs : list PyVal) (counts : gmap string PyVal) (n : Z)
    (p1 p2 p3 p4 p5 : Proc) :
  let q := CallQueryTable d "downtime_detail" "*" (build_filters ps pe) 1000 in
  let records := VList (r :: rs) in
  db self = Some d → scheduler self = Some sch →
  writer self = Some wr → notifier self = Some nt →
  ext q (proc g) = (Return records, p1) →
  ext (CallRunAnalysis records) p1 = (Return analysis, p2) →
  truthy analysis = true →
  ext (CallInterpretResults analysis) p2 = (Return machines, p3) →
  truthy machines = true →
  ext (CallScheduleMaintenanceTasks sch machines) p3
    = (Return schedule_results, p4) →
  ext (CallWriteMaintenanceTasks wr schedule_results sch) p4
    = (Return (VDict counts), p5) →
  (counts !! "tasks_created" = Some (VInt n)
   ∨ (counts !! "tasks_created" = None ∧ n = 0%Z)) →
  ∃ (res : Outcome Summary) (p' : Proc) (notified : list Event),
    run ext self ps pe l g =
      (res, l,
       {| proc := p';
          calls := calls g ++
            [{| ev_call := q; ev_outcome := Return records |};
             {| ev_call := CallRunAnalysis records;
                ev_outcome := Return analysis |};
             {| ev_call := CallInterpretResults analysis;
                ev_outcome := Return machines |};
             {| ev_call := CallScheduleMaintenanceTasks sch machines;
                ev_outcome := Return schedule_results |};
             {| ev_call := CallWriteMaintenanceTasks wr schedule_results sch;
                ev_outcome := Return (VDict counts) |}]
            ++ notified |})
    ∧ notified =
        (if (0 <? n)%Z then
           [{| ev_call := CallSendNotifications nt machines;
               ev_outcome := fst (ext (CallSendNotifications nt machines) p5) |}]
         else [])
    ∧ match res with
      | Return s => tasks_created s = VInt n
      | Raise e =>
          notified = [{| ev_call := CallSendNotifications nt machines;
                         ev_outcome := Raise e |}]
          ∧ is_Exception e = false
      end.
Proof.
  intros q records Hdb Hsch Hwr Hnt Hq Ha Hta Hi Htm Hs Hw Hn.
  assert (Hget : py_get (VDict counts) "tasks_created" (VInt 0)
                 = Return (VInt n)).
  { cbn. destruct Hn as [-> | [-> ->]]; reflexivity. }
  destruct (ext (CallSendNotifications nt machines) p5) as [o p6] eqn:Hnote.
  pose proof (run_through_write self ps pe l g d sch wr nt r analysis machines
                schedule_results (VDict counts) (VInt n) rs (0 <? n)%Z o
                p1 p2 p3 p4 p5 p6 Hdb Hsch Hwr Hnt Hq Ha Hta Hi Htm Hs Hw
                Hget eq_refl Hnote) as Hrun.
  cbv zeta in Hrun. cbn [fst].
  destruct (0 <? n)%Z;
    [destruct o as [vn | e]; [| destruct (is_Exception e) eqn:He] |];
    eexists _, _, _; (split; [exact Hrun |]); (split; [reflexivity |]);
    first [reflexivity | split; [reflexivity | exact He]].
Qed.

(** name the events a run added to the record [cs] *)
Ltac give_events cs :=
  lazymatch goal with
  | |- ∃ s p evs, (_, _, {| proc := _; calls := cs |}) = _ ∧ _ =>
      eexists _, _, []; rewrite app_nil_r
  | |- _ => eexists _, _, _
  end.

Ltac close_in :=
  repeat match goal with
    | H : In _ _ |- _ => cbn [In] in H
    | H : _ ∨ _ |- _ => destruct H as [H | H]
    | H : False |- _ => destruct H
    | H : {| ev_call := _; ev_outcome := _ |} = _ |- _ =>
        inversion H; clear H; subst
    end.


(** C9. The summary returned by [run] carries at most one error, for all
    arguments and every behaviour of the collaborators. ([run] returns a
    summary unless the last call raised an exception that is not an
    [Exception].) *)
Theorem C9_at_most_one_error
    {L} (self : Self) (ps pe : period) (l : L) (g : Global) :
  ∃ (res : Outcome Summary) (p' : Proc) (evs : list Event),
    run ext self ps pe l g
      = (res, l, {| proc := p'; calls := calls g ++ evs |})
    ∧ match res with
      | Return s => (List.length (errors s) ≤ 1)%nat
      | Raise e => passed_on e evs
      end.
Proof.
  destruct g as [p0 cs]. unfold_run. cbn [proc calls].
  repeat step; tidy_calls; give_events cs; (split; [reflexivity |]);
    first [show_passed_on | cbn; lia].
Qed.

(** C10. On a run in which the query, the analyzer or the interpreter
    returned a false value (nothing found), none of
    [schedule_maintenance_tasks], [write_maintenance_tasks] and
    [send_notifications] is called, and the run returns its summary. *)
Theorem C10_empty_gate_has_no_effects
    {L} (self : Self) (ps pe : period) (l : L) (g : Global) :
  ∃ (res : Outcome Summary) (p' : Proc) (evs : list Event),
    run ext self ps pe l g
      = (res, l, {| proc := p'; calls := calls g ++ evs |})
    ∧ (existsb empty_gate evs = true →
       existsb acts evs = false ∧ ∃ s, res = Return s).
Proof.
  destruct g as [p0 cs]. unfold_run. cbn [proc calls].
  repeat step; tidy_calls; give_events cs; (split; [reflexivity |]);
    cbn;
    repeat match goal with
      | H : truthy _ = _ |- _ => rewrite H
      end;
    cbn; intros Hgate;
    first [discriminate Hgate | split; [reflexivity | eexists; reflexivity]].
Qed.

Ltac unfold_init :=
  unfold ScheduledMaintenanceWorkflow, with_frame, __init__, try_except, bind,
    invoke, getattr, setenv, modify, get, ret, raise.

Ltac init_with H :=
  rewrite H;
  cbn beta iota;
  cbn [fst snd proc calls environ world negb orb db scheduler writer notifier
         set_db set_scheduler set_writer set_notifier empty_self].

Lemma nonempty_text_truthy (s : string) : s ≠ "" → truthy (VStr s) = true.
Proof.
  intros Hs. cbn. destruct (String.eqb_spec s ""); [contradiction | reflexivity].
Qed.

(** Construction with both settings in place and every constructor
    returning: the instance has its four attributes, built in order. *)
Lemma construction_succeeds
    {L} (l : L) (g : Global) (u k : string) (d sch wr nt : PyVal)
    (p1 p2 p3 p4 : Proc) :
  u ≠ "" → has_nul u = false → k ≠ "" → has_nul k = false →
  ext CallSupabaseClient
      {| environ := <["SUPABASE_KEY" := k]>
                      (<["SUPABASE_URL" := u]> (environ (proc g)));
         world := world (proc g) |} = (Return d, p1) →
  ext (CallMaintenanceTaskScheduler d) p1 = (Return sch, p2) →
  ext (CallMaintenanceTaskWriter d) p2 = (Return wr, p3) →
  ext CallMaintenanceNotifier p3 = (Return nt, p4) →
  ScheduledMaintenanceWorkflow ext (VStr u) (VStr k) l g =
    (Return {| db := Some d; scheduler := Some sch;
               writer := Some wr; notifier := Some nt |},
     l,
     {| proc := p4;
        calls := calls g ++
          [{| ev_call := CallSupabaseClient; ev_outcome := Return d |};
           {| ev_call := CallMaintenanceTaskScheduler d;
              ev_outcome := Return sch |};
           {| ev_call := CallMaintenanceTaskWriter d;
              ev_outcome := Return wr |};
           {| ev_call := CallMaintenanceNotifier;
              ev_outcome := Return nt |}] |}).
Proof.
  intros Hu Hnu Hk Hnk Hd Hs Hw Hn. unfold_init.
  rewrite (nonempty_text_truthy u Hu), (nonempty_text_truthy k Hk).
  cbn [negb orb]. rewrite Hnu, Hnk. cbn [proc calls environ world].
  init_with Hd. init_with Hs. init_with Hw. init_with Hn.
  tidy_calls. reflexivity.
Qed.

(** C8. Construction when a setting is missing or empty raises the
    [ValueError] "SUPABASE_URL and SUPABASE_KEY must be set in settings"
    before anything is built or changed; an exception raised by the
    constructor of a collaborator is the outcome of construction; and when
    construction returns an instance, its four attributes are the values
    the four constructors returned, called in the order client, scheduler,
    writer, notifier. *)
Theorem C8_construction_all_or_nothing
    {L} (SUPABASE_URL SUPABASE_KEY : PyVal) (l : L) (g : Global) :
  ∃ (o : Outcome Self) (p' : Proc) (evs : list Event),
    ScheduledMaintenanceWorkflow ext SUPABASE_URL SUPABASE_KEY l g
      = (o, l, {| proc := p'; calls := calls g ++ evs |})
    ∧ (truthy SUPABASE_URL = false ∨ truthy SUPABASE_KEY = false →
         o = Raise (Exn "ValueError"
                      "SUPABASE_URL and SUPABASE_KEY must be set in settings")
         ∧ evs = [] ∧ p' = proc g)
    ∧ (∀ c e, In {| ev_call := c; ev_outcome := Raise e |} evs → o = Raise e)
    ∧ (∀ self, o = Return self →
         ∃ d sch wr nt,
           self = {| db := Some d; scheduler := Some sch;
                     writer := Some wr; notifier := Some nt |}
           ∧ evs =
               [{| ev_call := CallSupabaseClient; ev_outcome := Return d |};
                {| ev_call := CallMaintenanceTaskScheduler d;
                   ev_outcome := Return sch |};
                {| ev_call := CallMaintenanceTaskWriter d;
                   ev_outcome := Return wr |};
                {| ev_call := CallMaintenanceNotifier;
                   ev_outcome := Return nt |}]).
Proof.
  destruct g as [p0 cs]. unfold_init. cbn [proc calls].
  destruct (truthy SUPABASE_URL) eqn:Hu;
    destruct (truthy SUPABASE_KEY) eqn:Hk; cbn [negb orb];
    destruct SUPABASE_URL; try discriminate Hu;
    destruct SUPABASE_KEY; try discriminate Hk;
    repeat step; tidy_calls;
    lazymatch goal with
    | |- ∃ o p evs, (_, _, {| proc := _; calls := cs |}) = _ ∧ _ =>
        eexists _, _, []; rewrite app_nil_r
    | |- _ => eexists _, _, _
    end;
    (split; [reflexivity |]);
    (split; [intros [H | H]; first [discriminate H | auto] |]);
    (split; [intros c e' Hin; close_in; reflexivity |]);
    intros self' Hs; inversion Hs; subst;
    eexists _, _, _, _; (split; reflexivity).
Qed.

Lemma strptime_2024_01_01 :
  strptime "2024-01-01" = Return (mk_datetime 2024 1 1 0 0 0 0).
Proof. vm_compute. reflexivity. Qed.

Lemma strptime_2024_01_31 :
  strptime "2024-01-31" = Return (mk_datetime 2024 1 31 0 0 0 0).
Proof. vm_compute. reflexivity. Qed.

Lemma isoformat_start_of_window :
  isoformat (mk_datetime 2024 1 1 0 0 0 0) = "2024-01-01T00:00:00".
Proof. vm_compute. reflexivity. Qed.

Lemma isoformat_end_of_window :
  isoformat (replace_time (mk_datetime 2024 1 31 0 0 0 0) 23 59 59 999999)
  = "2024-01-31T23:59:59.999999".
Proof. vm_compute. reflexivity. Qed.

Lemma filters_of_window (d1 d2 : datetime) :
  build_filters (PDatetime d1) (PDatetime d2)
  = <["resolved_at.lte" := isoformat d2]> {["resolved_at.gte" := isoformat d1]}.
Proof. unfold build_filters. cbn. rewrite insert_empty. reflexivity. Qed.

(** C7. The end-to-end scenario, from the command line:
    [--start_date 2024-01-01 --end_date 2024-01-31], both settings in
    place, the query returns 50 records, the analyzer a true value, the
    interpreter 4 machines, the writer reports [tasks_created = 4], the
    notifier returns and the terminal takes the lines printed. [main]
    moves the end of the window to 23:59:59.999999 of its day, and the
    summary [run] returns (which [main] returns as it is) has
    [analysis_success = True], [tasks_created = 4], no error, and the
    window echoed as "2024-01-01T00:00:00" and
    "2024-01-31T23:59:59.999999". The same two texts are the filter values
    of the query, and the notifier is called once, with the 4 machines. *)
Theorem C7_end_to_end_scenario
    (get_date_range : string → Proc → Outcome (string * string) * Proc)
    (parse_args : Proc → Outcome Args * Proc)
    (g : Global) (u k m : string)
    (v0 d sch wr nt analysis schedule_results write_results vn : PyVal)
    (w1 w2 w3 w4 w5 : PyVal)
    (records machines : list PyVal)
    (pa p0 p1 p2 p3 p4 p5 p6 p7 p8 p9 p10 p11 p12 p13 p14 p15 : Proc) :
  let args := {| start_date := Some "2024-01-01";
                 end_date := Some "2024-01-31"; mode := m |} in
  let filters : gmap string string :=
    <["resolved_at.lte" := "2024-01-31T23:59:59.999999"]>
      {["resolved_at.gte" := "2024-01-01T00:00:00"]} in
  let q := CallQueryTable d "downtime_detail" "*" filters 1000 in
  let first_day := mk_datetime 2024 1 1 0 0 0 0 in
  let last_day := mk_datetime 2024 1 31 23 59 59 999999 in
  u ≠ "" → has_nul u = false → k ≠ "" → has_nul k = false →
  parse_args (proc g) = (Return args, pa) →
  ext CallImportDateSelector pa = (Return v0, p0) →
  ext CallSupabaseClient
      {| environ := <["SUPABASE_KEY" := k]>
                      (<["SUPABASE_URL" := u]> (environ p0));
         world := world p0 |} = (Return d, p1) →
  ext (CallMaintenanceTaskScheduler d) p1 = (Return sch, p2) →
  ext (CallMaintenanceTaskWriter d) p2 = (Return wr, p3) →
  ext CallMaintenanceNotifier p3 = (Return nt, p4) →
  ext q p4 = (Return (VList records), p5) →
  List.length records = 50%nat →
  ext (CallRunAnalysis (VList records)) p5 = (Return analysis, p6) →
  truthy analysis = true →
  ext (CallInterpretResults analysis) p6 = (Return (VList machines), p7) →
  List.length machines = 4%nat →
  ext (CallScheduleMaintenanceTasks sch (VList machines)) p7
    = (Return schedule_results, p8) →
  ext (CallWriteMaintenanceTasks wr schedule_results sch) p8
    = (Return write_results, p9) →
  py_get write_results "tasks_created" (VInt 0) = Return (VInt 4) →
  ext (CallSendNotifications nt (VList machines)) p9 = (Return vn, p10) →
  ext (CallPrint PrintSummaryHeader) p10 = (Return w1, p11) →
  ext (CallPrint (PrintPeriod first_day last_day)) p11 = (Return w2, p12) →
  ext (CallPrint (PrintStatus true)) p12 = (Return w3, p13) →
  ext (CallPrint (PrintTasksCreated (VInt 4))) p13 = (Return w4, p14) →
  ext (CallPrint PrintComplete) p14 = (Return w5, p15) →
  main ext get_date_range parse_args (VStr u) (VStr k) tt g =
    (Return (MainSummary
               {| analysis_success := true;
                  tasks_created := VInt 4;
                  errors := [];
                  period_start := Some "2024-01-01T00:00:00";
                  period_end := Some "2024-01-31T23:59:59.999999" |}),
     tt,
     {| proc := p15;
        calls := calls g ++
          [{| ev_call := CallParseArgs; ev_outcome := Return (args_value args) |};
           {| ev_call := CallImportDateSelector; ev_outcome := Return v0 |};
           {| ev_call := CallSupabaseClient; ev_outcome := Return d |};
           {| ev_call := CallMaintenanceTaskScheduler d;
              ev_outcome := Return sch |};
           {| ev_call := CallMaintenanceTaskWriter d;
              ev_outcome := Return wr |};
           {| ev_call := CallMaintenanceNotifier; ev_outcome := Return nt |};
           {| ev_call := q; ev_outcome := Return (VList records) |};
           {| ev_call := CallRunAnalysis (VList records);
              ev_outcome := Return analysis |};
           {| ev_call := CallInterpretResults analysis;
              ev_outcome := Return (VList machines) |};
           {| ev_call := CallScheduleMaintenanceTasks sch (VList machines);
              ev_outcome := Return schedule_results |};
           {| ev_call := CallWriteMaintenanceTasks wr schedule_results sch;
              ev_outcome := Return write_results |};
           {| ev_call := CallSendNotifications nt (VList machines);
              ev_outcome := Return vn |};
           {| ev_call := CallPrint PrintSummaryHeader;
              ev_outcome := Return w1 |};
           {| ev_call := CallPrint (PrintPeriod first_day last_day);
              ev_outcome := Return w2 |};
           {| ev_call := CallPrint (PrintStatus true);
              ev_outcome := Return w3 |};
           {| ev_call := CallPrint (PrintTasksCreated (VInt 4));
              ev_outcome := Return w4 |};
           {| ev_call := CallPrint PrintComplete;
              ev_outcome := Return w5 |}] |}).
Proof.
  intros args filters q first_day last_day Hu Hnu Hk Hnk Hargs Himp Hd Hsch
    Hwr Hnt Hq Hlen Ha Hta Hi Hlm Hs Hw Hget Hn Hp1 Hp2 Hp3 Hp4 Hp5.
  destruct records as [| r rs]; [discriminate Hlen |].
  destruct machines as [| mc ms]; [discriminate Hlm |].
  subst q filters args first_day last_day.
  unfold main, print.
  unfold try_except, bind, invoke_parse_args, invoke, lift, ret.
  rewrite Hargs. cbn beta iota. cbn [proc calls].
  rewrite Himp.
  cbn [start_date end_date mode arg_truthy default from_option id String.eqb
         Ascii.eqb Bool.eqb negb andb].
  rewrite strptime_2024_01_01, strptime_2024_01_31. cbn [fst snd proc calls].
  erewrite (construction_succeeds (L := unit)); cycle 1; try eassumption.
  assert (Hq' :
    ext (CallQueryTable d "downtime_detail" "*"
           (build_filters
              (PDatetime (mk_datetime 2024 1 1 0 0 0 0))
              (PDatetime
                 (replace_time (mk_datetime 2024 1 31 0 0 0 0) 23 59 59 999999)))
           1000) p4 = (Return (VList (r :: rs)), p5)).
  { rewrite filters_of_window, isoformat_start_of_window,
      isoformat_end_of_window. exact Hq. }
  erewrite (run_through_write (L := unit)); cycle 1;
    try eassumption; try reflexivity.
  rewrite filters_of_window, isoformat_start_of_window,
    isoformat_end_of_window.
  change (0 <? 4)%Z with true.
  change (replace_time (mk_datetime 2024 1 31 0 0 0 0) 23 59 59 999999)
    with (mk_datetime 2024 1 31 23 59 59 999999).
  cbn beta iota zeta.
  cbn [period_echo period_str period_end period_start calls proc errors
         analysis_success tasks_created].
  rewrite Hp1. cbn beta iota. cbn [proc calls].
  rewrite Hp2. cbn beta iota. cbn [proc calls].
  rewrite Hp3. cbn beta iota. cbn [proc calls].
  rewrite Hp4. cbn beta iota. cbn [proc calls for_each].
  rewrite Hp5. cbn beta iota. cbn [proc calls].
  tidy_calls. reflexivity.
Qed.

(** ** Further properties of [run] *)

Ltac unpack_in :=
  repeat match goal with
    | |- _ ∧ _ => split
    | |- ∃ _, _ => eexists
    | |- In _ _ => cbn [In]; eauto 8
    | |- _ = _ => first [reflexivity | eassumption]
    end.

(** X1. The database is queried once per run, as the first call: table
    [downtime_detail], all columns, the filters built from the window, at
    most 1000 rows. A run makes no call only when the instance has no [db]
    attribute. The run returns its
    summary, or passes on an exception of its last call that is not an
    [Exception]. *)
Theorem run_queries_once_first
    {L} (self : Self) (ps pe : period) (l : L) (g : Global) :
  ∃ (res : Outcome Summary) (p' : Proc) (evs : list Event),
    run ext self ps pe l g
      = (res, l, {| proc := p'; calls := calls g ++ evs |})
    ∧ returns_or_passes_on res evs
    ∧ match evs with
      | [] => db self = None
      | ev :: later =>
          (∃ d, db self = Some d
                ∧ ev_call ev
                  = CallQueryTable d "downtime_detail" "*"
                      (build_filters ps pe) 1000)
          ∧ existsb (fun ev' => is_query (ev_call ev')) later = false
      end.
Proof.
  destruct g as [p0 cs]. unfold_run. cbn [proc calls].
  repeat step; tidy_calls; give_events cs; (split; [reflexivity |]);
    (split; [first [exact I | show_passed_on] |]);
    first [ reflexivity
          | split; [eexists; split; reflexivity | reflexivity] ].
Qed.

(** X3. Notifications go to the machines that were scheduled: whenever
    [send_notifications] is called, its receiver is [self.notifier], its
    argument is the list the interpreter returned and the scheduler was
    given, and the writer had returned a result whose [tasks_created] is
    greater than 0 and is the count of the summary returned. The run returns its
    summary, or passes on an exception of its last call that is not an
    [Exception]. *)
Theorem run_notifies_scheduled_machines
    {L} (self : Self) (ps pe : period) (l : L) (g : Global) :
  ∃ (res : Outcome Summary) (p' : Proc) (evs : list Event),
    run ext self ps pe l g
      = (res, l, {| proc := p'; calls := calls g ++ evs |})
    ∧ returns_or_passes_on res evs
    ∧ ∀ nt machines o,
        In {| ev_call := CallSendNotifications nt machines; ev_outcome := o |}
           evs →
        notifier self = Some nt
        ∧ (∃ a, In {| ev_call := CallInterpretResults a;
                      ev_outcome := Return machines |} evs)
        ∧ (∃ sch sr, In {| ev_call := CallScheduleMaintenanceTasks sch machines;
                           ev_outcome := Return sr |} evs)
        ∧ (∃ w sr sch write_results v,
             In {| ev_call := CallWriteMaintenanceTasks w sr sch;
                   ev_outcome := Return write_results |} evs
             ∧ py_get write_results "tasks_created" (VInt 0) = Return v
             ∧ py_gt0 v = Return true
             ∧ match res with
               | Return s => tasks_created s = v
               | Raise _ => True
               end).
Proof.
  destruct g as [p0 cs]. unfold_run. cbn [proc calls].
  repeat step; tidy_calls; give_events cs; (split; [reflexivity |]);
    (split; [first [exact I | show_passed_on] |]);
    intros nt' machines' o' Hin; close_in; cbn [tasks_created append_error
      set_tasks_created]; unpack_in; exact I.
Qed.

(** X2. Each stage works on what the stage before it returned: the analyzer on
    the records of the query, the interpreter on a true analysis result,
    the scheduler ([self.scheduler]) on a true machine list, the writer
    ([self.writer]) on the scheduler's result and the scheduler itself. The run returns its
    summary, or passes on an exception of its last call that is not an
    [Exception]. *)
Theorem run_stages_are_chained
    {L} (self : Self) (ps pe : period) (l : L) (g : Global) :
  ∃ (res : Outcome Summary) (p' : Proc) (evs : list Event),
    run ext self ps pe l g
      = (res, l, {| proc := p'; calls := calls g ++ evs |})
    ∧ returns_or_passes_on res evs
    ∧ (∀ records o,
         In {| ev_call := CallRunAnalysis records; ev_outcome := o |} evs →
         truthy records = true
         ∧ ∃ d, In {| ev_call := CallQueryTable d "downtime_detail" "*"
                                   (build_filters ps pe) 1000;
                      ev_outcome := Return records |} evs)
    ∧ (∀ a o,
         In {| ev_call := CallInterpretResults a; ev_outcome := o |} evs →
         truthy a = true
         ∧ ∃ records, In {| ev_call := CallRunAnalysis records;
                            ev_outcome := Return a |} evs)
    ∧ (∀ sch machines o,
         In {| ev_call := CallScheduleMaintenanceTasks sch machines;
               ev_outcome := o |} evs →
         scheduler self = Some sch ∧ truthy machines = true
         ∧ ∃ a, In {| ev_call := CallInterpretResults a;
                      ev_outcome := Return machines |} evs)
    ∧ (∀ w sr sch o,
         In {| ev_call := CallWriteMaintenanceTasks w sr sch;
               ev_outcome := o |} evs →
         writer self = Some w ∧ scheduler self = Some sch
         ∧ ∃ machines, In {| ev_call := CallScheduleMaintenanceTasks sch machines;
                             ev_outcome := Return sr |} evs).
Proof.
  destruct g as [p0 cs]. unfold_run. cbn [proc calls].
  repeat step; tidy_calls; give_events cs; (split; [reflexivity |]);
    (split; [first [exact I | show_passed_on] |]);
    (split; [intros r' o' Hin; close_in; unpack_in |]);
    (split; [intros a' o' Hin; close_in; unpack_in |]);
    (split; [intros sch' m' o' Hin; close_in; unpack_in |]);
    intros w' sr' sch' o' Hin; close_in; unpack_in.
Qed.

(** X4. A failure stops the pipeline: only the last call of a run can have
    raised. In particular nothing is written after the scheduler fails and
    nothing is notified after the writer fails. The run returns its
    summary, or passes on an exception of its last call that is not an
    [Exception]. *)
Theorem run_stops_at_first_failure
    {L} (self : Self) (ps pe : period) (l : L) (g : Global) :
  ∃ (res : Outcome Summary) (p' : Proc) (evs : list Event),
    run ext self ps pe l g
      = (res, l, {| proc := p'; calls := calls g ++ evs |})
    ∧ returns_or_passes_on res evs
    ∧ existsb raised (removelast evs) = false.
Proof.
  destruct g as [p0 cs]. unfold_run. cbn [proc calls].
  repeat step; tidy_calls; give_events cs; (split; [reflexivity |]);
    (split; [first [exact I | show_passed_on] |]);
    reflexivity.
Qed.

(** X5. The fields of a summary agree: when [analysis_success] is false there
    is exactly one error and [tasks_created] is still [0]; so a summary
    without errors has [analysis_success] true, and a count other than [0]
    is only reported after a successful analysis. (No summary is returned
    only when the last call raised an exception that is not an
    [Exception].) *)
Theorem run_summary_is_coherent
    {L} (self : Self) (ps pe : period) (l : L) (g : Global) :
  ∃ (res : Outcome Summary) (p' : Proc) (evs : list Event),
    run ext self ps pe l g
      = (res, l, {| proc := p'; calls := calls g ++ evs |})
    ∧ match res with
      | Raise e => passed_on e evs
      | Return s =>
          (analysis_success s = false →
           tasks_created s = VInt 0 ∧ List.length (errors s) = 1%nat)
          ∧ (errors s = [] → analysis_success s = true)
          ∧ (tasks_created s ≠ VInt 0 → analysis_success s = true)
      end.
Proof.
  destruct g as [p0 cs]. unfold_run. cbn [proc calls].
  repeat step; tidy_calls; give_events cs; (split; [reflexivity |]);
    first
      [ show_passed_on
      | cbn;
        (split; [intros H; first [discriminate H | split; reflexivity] |]);
        (split; [intros H; first [reflexivity | discriminate H] |]);
        intros H; first [reflexivity | contradiction H; reflexivity] ].
Qed.






(** ** Further properties of construction *)

(** X11. With two texts as settings (not empty, without a NUL character),
    construction calls the constructors in the order client, scheduler,
    writer, notifier and stops at the first that raises, with that
    exception as its outcome: the client is always constructed, the
    scheduler and the writer are bound to the object the client's
    constructor returned, and when all four return, the instance holds the
    four objects. *)
Theorem construction_calls_in_order
    {L} (u k : string) (l : L) (g : Global) :
  u ≠ "" → has_nul u = false → k ≠ "" → has_nul k = false →
  ∃ (o : Outcome Self) (p' : Proc) (o1 : Outcome PyVal) (rest1 : list Event),
    ScheduledMaintenanceWorkflow ext (VStr u) (VStr k) l g
      = (o, l,
         {| proc := p';
            calls := calls g ++
              {| ev_call := CallSupabaseClient; ev_outcome := o1 |} :: rest1 |})
    ∧ match o1 with
      | Raise e => o = Raise e ∧ rest1 = []
      | Return d =>
          ∃ o2 rest2,
            rest1 = {| ev_call := CallMaintenanceTaskScheduler d;
                       ev_outcome := o2 |} :: rest2
            ∧ match o2 with
              | Raise e => o = Raise e ∧ rest2 = []
              | Return sch =>
                  ∃ o3 rest3,
                    rest2 = {| ev_call := CallMaintenanceTaskWriter d;
                               ev_outcome := o3 |} :: rest3
                    ∧ match o3 with
                      | Raise e => o = Raise e ∧ rest3 = []
                      | Return wr =>
                          ∃ o4,
                            rest3 = [{| ev_call := CallMaintenanceNotifier;
                                        ev_outcome := o4 |}]
                            ∧ match o4 with
                              | Raise e => o = Raise e
                              | Return nt =>
                                  o = Return {| db := Some d;
                                                scheduler := Some sch;
                                                writer := Some wr;
                                                notifier := Some nt |}
                              end
                      end
              end
      end.
Proof.
  intros Hu Hnu Hk Hnk. destruct g as [p0 cs]. unfold_init.
  rewrite (nonempty_text_truthy u Hu), (nonempty_text_truthy k Hk).
  cbn [negb orb]. rewrite Hnu, Hnk. cbn [proc calls environ world].
  repeat step; tidy_calls; eexists _, _, _, _; (split; [reflexivity |]);
    cbn beta iota;
    repeat first
      [ reflexivity
      | split
      | eexists ].
Qed.

(** X12. The client is constructed after both settings were written to the
    environment: with two texts as settings (not empty, without a NUL
    character), the first call is the client constructor, and it runs in the
    process where [SUPABASE_URL] and [SUPABASE_KEY] hold the settings and
    nothing else has changed. *)
Theorem construction_client_sees_settings
    {L} (u k : string) (l : L) (g : Global) :
  u ≠ "" → has_nul u = false → k ≠ "" → has_nul k = false →
  ∃ (o : Outcome Self) (p' : Proc) (o1 : Outcome PyVal) (p1 : Proc)
    (later : list Event),
    ext CallSupabaseClient
        {| environ := <["SUPABASE_KEY" := k]>
                        (<["SUPABASE_URL" := u]> (environ (proc g)));
           world := world (proc g) |} = (o1, p1)
    ∧ ScheduledMaintenanceWorkflow ext (VStr u) (VStr k) l g
      = (o, l,
         {| proc := p';
            calls := calls g ++
              {| ev_call := CallSupabaseClient; ev_outcome := o1 |} :: later |}).
Proof.
  intros Hu Hnu Hk Hnk. destruct g as [p0 cs]. unfold_init.
  rewrite (nonempty_text_truthy u Hu), (nonempty_text_truthy k Hk).
  cbn [negb orb]. rewrite Hnu, Hnk. cbn [proc calls environ world].
  repeat step; tidy_calls; eexists _, _, _, _, _;
    (split; reflexivity).
Qed.


(** ** Properties of [main] *)

(** an event among the calls made: at the head, or in one of the parts *)
Ltac find_in :=
  cbn [In app];
  first [ eassumption
        | left; reflexivity
        | right; find_in
        | apply in_or_app; left; eassumption
        | apply in_or_app; right; find_in ].

(** what [run] gives to its caller *)
Lemma run_outcome
    {L} (self : Self) (ps pe : period) (l : L) (g : Global) :
  ∃ (res : Outcome Summary) (p' : Proc) (evs : list Event),
    run ext self ps pe l g
      = (res, l, {| proc := p'; calls := calls g ++ evs |})
    ∧ match res with
      | Return s =>
          period_start s = period_echo ps
          ∧ period_end s = period_echo pe
          ∧ (List.length (errors s) ≤ 1)%nat
      | Raise e =>
          is_Exception e = false
          ∧ ∃ c, In {| ev_call := c; ev_outcome := Raise e |} evs
      end
    ∧ existsb (fun ev => is_selector (ev_call ev)) evs = false
    ∧ (∀ d t c f n o,
         In {| ev_call := CallQueryTable d t c f n; ev_outcome := o |} evs →
         f = build_filters ps pe).
Proof.
  destruct g as [p0 cs]. unfold_run. cbn [proc calls].
  repeat step; tidy_calls; give_events cs; (split; [reflexivity |]);
    (split;
       [cbn beta iota;
        first [ split; [assumption | eexists; find_in]
              | (split; [reflexivity |]); (split; [reflexivity |]); cbn; lia ]
       |]);
    (split; [reflexivity |]);
    intros d' t' c' f' n' o' Hin; close_in; reflexivity.
Qed.

(** what construction gives to its caller *)
Lemma construction_outcome
    {L} (SUPABASE_URL SUPABASE_KEY : PyVal) (l : L) (g : Global) :
  ∃ (o : Outcome Self) (p' : Proc) (evs : list Event),
    ScheduledMaintenanceWorkflow ext SUPABASE_URL SUPABASE_KEY l g
      = (o, l, {| proc := p'; calls := calls g ++ evs |})
    ∧ existsb (fun ev => is_query (ev_call ev)) evs = false
    ∧ existsb (fun ev => is_selector (ev_call ev)) evs = false
    ∧ (truthy SUPABASE_URL = false ∨ truthy SUPABASE_KEY = false →
         o = Raise (Exn "ValueError"
                      "SUPABASE_URL and SUPABASE_KEY must be set in settings")
         ∧ evs = [] ∧ p' = proc g)
    ∧ (∀ e, o = Raise e → is_Exception e = false →
         ∃ c, In {| ev_call := c; ev_outcome := Raise e |} evs).
Proof.
  destruct g as [p0 cs]. unfold_init. cbn [proc calls].
  destruct (truthy SUPABASE_URL) eqn:Hu;
    destruct (truthy SUPABASE_KEY) eqn:Hk; cbn [negb orb];
    destruct SUPABASE_URL; try discriminate Hu;
    destruct SUPABASE_KEY; try discriminate Hk;
    repeat step; tidy_calls;
    lazymatch goal with
    | |- ∃ o p evs, (_, _, {| proc := _; calls := cs |}) = _ ∧ _ =>
        eexists _, _, []; rewrite app_nil_r
    | |- _ => eexists _, _, _
    end;
    (split; [reflexivity |]); (split; [reflexivity |]);
    (split; [reflexivity |]);
    (split; [intros [H | H]; first [discriminate H | auto] |]);
    intros e' He' Hne; try discriminate He'; inversion He'; subst;
    first [ discriminate Hne | congruence | eexists; find_in ].
Qed.

(** [strptime] raises [ValueError] only *)
Lemma strptime_Exception (s : string) (e : exn) :
  strptime s = Raise e → is_Exception e = true.
Proof.
  unfold strptime.
  destruct (match_ymd s) as [[[[y m] dd] rest] |];
    repeat match goal with
      | |- context [if ?b then _ else _] => destruct b
      end;
    intros H; inversion H; reflexivity.
Qed.

Ltac unfold_main :=
  unfold main, print;
  unfold try_except, bind, invoke, invoke_parse_args, invoke_get_date_range,
    lift, ret.

Ltac main_cbn :=
  cbn beta iota; cbn [proc calls fst snd for_each];
  unfold print, bind, invoke, ret;
  cbn beta iota; cbn [proc calls fst snd].

(** one step along a path of [main]: the next call, test or stage, with
    every outcome it can have; [select] is the date selector *)
Ltac main_step select :=
  match goal with
  | H : strptime _ = Raise ?e |- context [is_Exception ?e] =>
      rewrite (strptime_Exception _ _ H)
  | H : is_Exception ?e = _ |- context [is_Exception ?e] => rewrite H
  | |- context [is_Exception (Exn ?c ?m)] =>
      let b := eval vm_compute in (is_Exception (Exn c "")) in
      change (is_Exception (Exn c m)) with b
  | |- context [select ?m ?p] =>
      let a := fresh "a" in
      let b := fresh "b" in
      let e := fresh "e" in
      let p' := fresh "p" in
      let E := fresh "Hsel" in
      destruct (select m p) as [[[a b] | e] p'] eqn:E
  | |- context [strptime ?x] =>
      let H := fresh "Hdate" in
      destruct (strptime x) eqn:H
  | |- context [ScheduledMaintenanceWorkflow ext ?u ?k ?l ?g0] =>
      let o := fresh "o" in
      let pc := fresh "pc" in
      let evc := fresh "evc" in
      let Hc := fresh "Hc" in
      let Hcq := fresh "Hcq" in
      let Hcs := fresh "Hcs" in
      let Hcn := fresh "Hcn" in
      let ec := fresh "ec" in
      let Hec := fresh "Hec" in
      let cc := fresh "cc" in
      let Hin := fresh "Hraised" in
      destruct (construction_outcome u k l g0)
        as (o & pc & evc & Hc & Hcq & Hcs & _ & Hcn);
      rewrite Hc; destruct o as [? | ec];
      [ clear Hcn
      | specialize (Hcn _ eq_refl);
        destruct (is_Exception ec) eqn:Hec;
        [clear Hcn | destruct (Hcn eq_refl) as [cc Hin]; clear Hcn] ]
  | |- context [run ext ?wf ?a ?b ?l ?g0] =>
      let res := fresh "res" in
      let pr := fresh "pr" in
      let evr := fresh "evr" in
      let Hr := fresh "Hr" in
      let Hres := fresh "Hres" in
      let Hps := fresh "Hps" in
      let Hpe := fresh "Hpe" in
      let Herr := fresh "Herr" in
      let Hne := fresh "Hne" in
      let cr := fresh "cr" in
      let Hin := fresh "Hraised" in
      let Hrs := fresh "Hrs" in
      let Hrq := fresh "Hrq" in
      destruct (run_outcome wf a b l g0)
        as (res & pr & evr & Hr & Hres & Hrs & Hrq);
      rewrite Hr; destruct res;
      [destruct Hres as (Hps & Hpe & Herr) | destruct Hres as (Hne & cr & Hin)]
  | |- context [match errors ?s with [] => _ | _ :: _ => _ end] =>
      let Hes := fresh "Hes" in
      destruct (errors s) as [| ? [| ? ?]] eqn:Hes;
      [ | | exfalso;
            match goal with
            | H : (List.length (_ :: _ :: _) ≤ 1)%nat |- _ => cbn in H; lia
            end]
  | |- context [if is_Exception ?e then _ else _] =>
      destruct (is_Exception e) eqn:?
  | |- context [ext ?c ?p] =>
      let o := fresh "o" in
      let p' := fresh "p" in
      let E := fresh "E" in
      destruct (ext c p) as [o p'] eqn:E; destruct o
  | |- context [if ?b then _ else _] => destruct b eqn:?
  end; main_cbn.

(** the events of a list made of parts, one by one *)
Ltac split_in :=
  repeat match goal with
    | H : In _ (_ :: _) |- _ => cbn [In] in H
    | H : _ ∨ _ |- _ => destruct H as [H | H]
    | H : {| ev_call := _; ev_outcome := _ |} = _ |- _ => discriminate H
    | H : In _ (_ ++ _) |- _ => apply in_app_or in H
    | H : In _ [] |- _ => destruct H
    | H : False |- _ => destruct H
    end.


(** X15. [main] with two dates on the command line, texts of ASCII
    characters, one of which [strptime] rejects (not of the form
    year-month-day, or not a day of the calendar): the [ValueError] is
    caught, the failure is printed and returned, and neither a collaborator
    is constructed nor the database queried. *)
Theorem main_rejects_bad_date
    (get_date_range : string → Proc → Outcome (string * string) * Proc)
    (parse_args : Proc → Outcome Args * Proc)
    (SUPABASE_URL SUPABASE_KEY : PyVal) (g : Global)
    (s1 s2 m : string) (e : exn) (v0 vp : PyVal) (pa p0 p1 : Proc) :
  let args := {| start_date := Some s1; end_date := Some s2; mode := m |} in
  s1 ≠ "" → s2 ≠ "" →
  is_ascii s1 = true → is_ascii s2 = true →
  parse_args (proc g) = (Return args, pa) →
  ext CallImportDateSelector pa = (Return v0, p0) →
  (strptime s1 = Raise e
   ∨ (∃ d1, strptime s1 = Return d1) ∧ strptime s2 = Raise e) →
  ext (CallPrint (PrintFailure (exn_str e))) p0 = (Return vp, p1) →
  main ext get_date_range parse_args SUPABASE_URL SUPABASE_KEY tt g =
    (Return (MainFailed (exn_str e)), tt,
     {| proc := p1;
        calls := calls g ++
          [{| ev_call := CallParseArgs;
              ev_outcome := Return (args_value args) |};
           {| ev_call := CallImportDateSelector; ev_outcome := Return v0 |};
           {| ev_call := CallPrint (PrintFailure (exn_str e));
              ev_outcome := Return vp |}] |}).
Proof.
  intros args H1 H2 _ _ Hargs Himp Hbad Hprint. subst args. unfold_main.
  rewrite Hargs. cbn beta iota. cbn [proc calls].
  rewrite Himp. cbn beta iota.
  cbn [start_date end_date mode arg_truthy default from_option id proc calls].
  destruct (String.eqb_spec s1 ""); [contradiction |].
  destruct (String.eqb_spec s2 ""); [contradiction |].
  cbn [negb andb].
  destruct Hbad as [Hs | [[d1 Hs1] Hs2]].
  - rewrite Hs. cbn beta iota. rewrite (strptime_Exception _ _ Hs).
    cbn [proc calls]. rewrite Hprint. tidy_calls. reflexivity.
  - rewrite Hs1, Hs2. cbn beta iota. rewrite (strptime_Exception _ _ Hs2).
    cbn [proc calls]. rewrite Hprint. tidy_calls. reflexivity.
Qed.

(** X16. [main] with a setting missing or empty: after the dates are read, the
    [ValueError] of construction is caught, the failure is printed and
    returned; the pipeline is not started. *)
Theorem main_settings_missing
    (get_date_range : string → Proc → Outcome (string * string) * Proc)
    (parse_args : Proc → Outcome Args * Proc)
    (SUPABASE_URL SUPABASE_KEY : PyVal) (g : Global)
    (s1 s2 m : string) (d1 d2 : datetime) (v0 vp : PyVal) (pa p0 p1 : Proc) :
  let args := {| start_date := Some s1; end_date := Some s2; mode := m |} in
  let message := "SUPABASE_URL and SUPABASE_KEY must be set in settings" in
  s1 ≠ "" → s2 ≠ "" →
  parse_args (proc g) = (Return args, pa) →
  ext CallImportDateSelector pa = (Return v0, p0) →
  strptime s1 = Return d1 → strptime s2 = Return d2 →
  truthy SUPABASE_URL = false ∨ truthy SUPABASE_KEY = false →
  ext (CallPrint (PrintFailure message)) p0 = (Return vp, p1) →
  main ext get_date_range parse_args SUPABASE_URL SUPABASE_KEY tt g =
    (Return (MainFailed message), tt,
     {| proc := p1;
        calls := calls g ++
          [{| ev_call := CallParseArgs;
              ev_outcome := Return (args_value args) |};
           {| ev_call := CallImportDateSelector; ev_outcome := Return v0 |};
           {| ev_call := CallPrint (PrintFailure message);
              ev_outcome := Return vp |}] |}).
Proof.
  intros args message H1 H2 Hargs Himp Hs1 Hs2 Hmiss Hprint.
  subst args message. unfold_main.
  rewrite Hargs. cbn beta iota. cbn [proc calls].
  rewrite Himp. cbn beta iota.
  cbn [start_date end_date mode arg_truthy default from_option id proc calls].
  destruct (String.eqb_spec s1 ""); [contradiction |].
  destruct (String.eqb_spec s2 ""); [contradiction |].
  cbn [negb andb]. rewrite Hs1, Hs2. cbn beta iota. cbn [fst snd proc calls].
  match goal with
  | |- context [ScheduledMaintenanceWorkflow ext ?u ?k ?l ?g0] =>
      destruct (construction_outcome u k l g0)
        as (o & p' & evs & Hc & _ & _ & Hm & _)
  end.
  destruct (Hm Hmiss) as (-> & -> & ->).
  rewrite Hc. cbn beta iota. cbn [proc calls exn_str].
  change (is_Exception (Exn "ValueError" _)) with true. cbn beta iota.
  rewrite Hprint. rewrite app_nil_r. tidy_calls. reflexivity.
Qed.

Lemma string_app_assoc (a b c : string) :
  ((a ++ b) ++ c = a ++ (b ++ c))%string.
Proof.
  induction a as [| x a IH]; [reflexivity |].
  change (String x ((a ++ b) ++ c) = String x (a ++ (b ++ c)))%string.
  rewrite IH. reflexivity.
Qed.

Lemma fmt_d_2_constants :
  fmt_d 2 0 = "00" ∧ fmt_d 2 23 = "23" ∧ fmt_d 2 59 = "59"
  ∧ fmt_d 6 999999 = "999999".
Proof. vm_compute. repeat split; reflexivity. Qed.

(** a timestamp at midnight, in text *)
Lemma isoformat_midnight (y m d : N) :
  isoformat (mk_datetime y m d 0 0 0 0)
  = (isoformat_date (mk_datetime y m d 0 0 0 0) ++ "T00:00:00")%string.
Proof.
  destruct fmt_d_2_constants as (H0 & _).
  unfold isoformat, isoformat_date.
  cbn [year month day hour minute second microsecond N.eqb].
  rewrite H0. rewrite !string_app_assoc. reflexivity.
Qed.

(** a timestamp moved to the last microsecond of its day, in text *)
Lemma isoformat_end_of_day (d : datetime) :
  isoformat (replace_time d 23 59 59 999999)
  = (isoformat_date d ++ "T23:59:59.999999")%string.
Proof.
  destruct fmt_d_2_constants as (_ & H23 & H59 & Hus).
  unfold isoformat, isoformat_date, replace_time.
  cbn [year month day hour minute second microsecond].
  rewrite H23, H59, Hus. rewrite !string_app_assoc. reflexivity.
Qed.

(** [strptime] with this format leaves the time at midnight *)
Lemma strptime_midnight (s : string) (d : datetime) :
  strptime s = Return d →
  d = mk_datetime (year d) (month d) (day d) 0 0 0 0.
Proof.
  unfold strptime.
  destruct (match_ymd s) as [[[[y m] dd] rest] |]; [| discriminate].
  repeat match goal with
    | |- context [if ?b then _ else _] => destruct b
    end; try discriminate.
  intros H. inversion H. reflexivity.
Qed.

Lemma existsb_false_In {A} (f : A → bool) (x : A) (xs : list A) :
  existsb f xs = false → In x xs → f x = false.
Proof.
  intros Hf Hin. destruct (f x) eqn:Hx; [| reflexivity].
  rewrite <- Hf. symmetry. apply existsb_exists. exists x. split; assumption.
Qed.



(** X19. The window [main] passes on is made of whole days. With two dates on
    the command line that [strptime] accepts, a summary echoes the start
    day at [T00:00:00] and the end day at [T23:59:59.999999], and a query
    of the database carries exactly these two texts as
    [resolved_at.gte] and [resolved_at.lte]. *)
Theorem main_window_is_whole_days
    (get_date_range : string → Proc → Outcome (string * string) * Proc)
    (parse_args : Proc → Outcome Args * Proc)
    (SUPABASE_URL SUPABASE_KEY : PyVal) (g : Global)
    (s1 s2 m : string) (d1 d2 : datetime) (pa : Proc) :
  s1 ≠ "" → s2 ≠ "" →
  parse_args (proc g)
    = (Return {| start_date := Some s1; end_date := Some s2; mode := m |}, pa) →
  strptime s1 = Return d1 → strptime s2 = Return d2 →
  ∃ (res : Outcome MainResult) (p' : Proc) (evs : list Event),
    main ext get_date_range parse_args SUPABASE_URL SUPABASE_KEY tt g
      = (res, tt, {| proc := p'; calls := calls g ++ evs |})
    ∧ (∀ s, res = Return (MainSummary s) →
         period_start s = Some (isoformat_date d1 ++ "T00:00:00")%string
         ∧ period_end s = Some (isoformat_date d2 ++ "T23:59:59.999999")%string)
    ∧ (∀ d t c f n o,
         In {| ev_call := CallQueryTable d t c f n; ev_outcome := o |} evs →
         f = <["resolved_at.lte" :=
                 (isoformat_date d2 ++ "T23:59:59.999999")%string]>
               {["resolved_at.gte" :=
                   (isoformat_date d1 ++ "T00:00:00")%string]}).
Proof.
  intros H1 H2 Hargs Hs1 Hs2.
  pose proof (strptime_midnight s1 d1 Hs1) as Hm.
  assert (Hstart : isoformat d1
                   = (isoformat_date d1 ++ "T00:00:00")%string).
  { rewrite Hm at 1. rewrite isoformat_midnight. reflexivity. }
  destruct g as [p0 cs]. unfold_main. cbn [proc calls] in *.
  rewrite Hargs. main_cbn.
  cbn [start_date end_date mode arg_truthy default from_option id].
  destruct (String.eqb_spec s1 ""); [contradiction |].
  destruct (String.eqb_spec s2 ""); [contradiction |].
  cbn [negb andb]. rewrite Hs1, Hs2. main_cbn.
  repeat main_step get_date_range; tidy_calls; eexists _, _, _;
    (split; [reflexivity |]);
    (split;
       [intros s' Hs'; try discriminate Hs'; inversion Hs'; subst s';
        match goal with
        | Hps : period_start _ = _, Hpe : period_end _ = _ |- _ =>
            rewrite Hps, Hpe
        end;
        cbn [period_echo period_str];
        rewrite Hstart, isoformat_end_of_day; split; reflexivity
       | intros d t c f lim o Hin; split_in;
         match goal with
         | Hq : existsb (fun ev => is_query (ev_call ev)) ?l = false,
           Hi : In _ ?l |- _ =>
             apply (existsb_false_In _ _ _ Hq) in Hi; discriminate Hi
         | Hrq : context [build_filters], Hi : In _ _ |- _ =>
             apply Hrq in Hi; subst f;
             rewrite filters_of_window, Hstart, isoformat_end_of_day;
             reflexivity
         end ]).
Qed.

(** X21. A summary that cannot be printed is lost. When [run] has returned
    its summary, whatever it holds, and the first [print] of the summary
    raises an instance [e] of [Exception], [main] prints the failure and
    returns [{'status': 'failed', 'error': str(e)}] in place of the
    summary; the calls of the run stay made. *)
Theorem main_print_failure_hides_run
    (get_date_range : string → Proc → Outcome (string * string) * Proc)
    (parse_args : Proc → Outcome Args * Proc)
    (SUPABASE_URL SUPABASE_KEY : PyVal) (g g1 g2 : Global)
    (s1 s2 m : string) (d1 d2 : datetime) (wf : Self) (s : Summary)
    (e : exn) (v0 vp : PyVal) (pa p0 p3 p4 : Proc) :
  let args := {| start_date := Some s1; end_date := Some s2; mode := m |} in
  let imported :=
    {| proc := p0;
       calls := calls g ++
         [{| ev_call := CallParseArgs;
             ev_outcome := Return (args_value args) |};
          {| ev_call := CallImportDateSelector; ev_outcome := Return v0 |}] |} in
  s1 ≠ "" → s2 ≠ "" →
  parse_args (proc g) = (Return args, pa) →
  ext CallImportDateSelector pa = (Return v0, p0) →
  strptime s1 = Return d1 → strptime s2 = Return d2 →
  ScheduledMaintenanceWorkflow ext SUPABASE_URL SUPABASE_KEY tt imported
    = (Return wf, tt, g1) →
  run ext wf (PDatetime d1) (PDatetime (replace_time d2 23 59 59 999999)) tt g1
    = (Return s, tt, g2) →
  ext (CallPrint PrintSummaryHeader) (proc g2) = (Raise e, p3) →
  is_Exception e = true →
  ext (CallPrint (PrintFailure (exn_str e))) p3 = (Return vp, p4) →
  main ext get_date_range parse_args SUPABASE_URL SUPABASE_KEY tt g =
    (Return (MainFailed (exn_str e)), tt,
     {| proc := p4;
        calls := calls g2 ++
          [{| ev_call := CallPrint PrintSummaryHeader; ev_outcome := Raise e |};
           {| ev_call := CallPrint (PrintFailure (exn_str e));
              ev_outcome := Return vp |}] |}).
Proof.
  intros args imported H1 H2 Hargs Himp Hs1 Hs2 Hc Hr Hp He Hpf.
  subst args imported. unfold_main.
  rewrite Hargs. cbn beta iota. cbn [proc calls].
  rewrite Himp. cbn beta iota.
  cbn [start_date end_date mode arg_truthy default from_option id proc calls].
  destruct (String.eqb_spec s1 ""); [contradiction |].
  destruct (String.eqb_spec s2 ""); [contradiction |].
  cbn [negb andb]. rewrite Hs1, Hs2. cbn beta iota. cbn [fst snd proc calls].
  tidy_calls. rewrite Hc. cbn beta iota. rewrite Hr. cbn beta iota.
  rewrite Hp. cbn beta iota. rewrite He. cbn [proc calls].
  rewrite Hpf. tidy_calls. reflexivity.
Qed.

End Properties.

(** ** Filter construction *)

Lemma present_truthy (p : period) : present p → period_truthy p = true.
Proof.
  destruct p as [| d | s]; cbn; intros H; [destruct H | reflexivity |].
  destruct (String.eqb_spec s ""); [contradiction | reflexivity].
Qed.

(** C6. The rule table of filter construction. An endpoint is present when
    it is a timestamp or a non-empty text. With both endpoints absent the
    map is empty; with one present it is the single entry
    [resolved_at.gte] (start) or [resolved_at.lte] (end); with both it has
    exactly these two keys. The values are the inputs in text form: a
    timestamp through [isoformat], a text unchanged. *)
Theorem C6_filter_rule_table :
  build_filters PNone PNone = ∅
  ∧ (∀ ps, present ps →
       build_filters ps PNone = {["resolved_at.gte" := period_str ps]})
  ∧ (∀ pe, present pe →
       build_filters PNone pe = {["resolved_at.lte" := period_str pe]})
  ∧ (∀ ps pe, present ps → present pe →
       dom (build_filters ps pe)
         = ({["resolved_at.gte"; "resolved_at.lte"]} : gset string)
       ∧ build_filters ps pe !! "resolved_at.gte" = Some (period_str ps)
       ∧ build_filters ps pe !! "resolved_at.lte" = Some (period_str pe))
  ∧ (∀ d, period_str (PDatetime d) = isoformat d)
  ∧ (∀ s, period_str (PStr s) = s).
Proof.
  split; [reflexivity |].
  split.
  { intros ps Hps. unfold build_filters.
    rewrite (present_truthy ps Hps). cbn. apply insert_empty. }
  split.
  { intros pe Hpe. unfold build_filters.
    rewrite (present_truthy pe Hpe). cbn. apply insert_empty. }
  split.
  { intros ps pe Hps Hpe. unfold build_filters.
    rewrite (present_truthy ps Hps), (present_truthy pe Hpe). cbn [andb].
    split; [| split].
    - rewrite !dom_insert_L, dom_empty_L. set_solver.
    - rewrite lookup_insert_ne by discriminate. apply lookup_insert_eq.
    - apply lookup_insert_eq. }
  split; reflexivity.
Qed.

(** X10. Each endpoint decides its own key, whatever the other is:
    [resolved_at.gte] is in the map exactly when [period_start] is true,
    [resolved_at.lte] exactly when [period_end] is true, and there is never
    another key. An empty text counts as false: it adds no filter, although
    the summary echoes it as given. *)
Theorem filters_follow_truthiness (ps pe : period) :
  (∀ k : string,
     build_filters ps pe !! k =
       if decide (k = "resolved_at.gte") then
         (if period_truthy ps then Some (period_str ps) else None)
       else if decide (k = "resolved_at.lte") then
         (if period_truthy pe then Some (period_str pe) else None)
       else None)
  ∧ build_filters (PStr "") pe = build_filters PNone pe
  ∧ build_filters ps (PStr "") = build_filters ps PNone
  ∧ period_echo (PStr "") = Some "".
Proof.
  split; [| split; [reflexivity | split; reflexivity]].
  intros k. unfold build_filters.
  destruct (period_truthy ps), (period_truthy pe); cbn [andb];
    repeat case_decide; subst;
    rewrite ?lookup_insert_eq, ?lookup_insert_ne, ?lookup_empty
      by congruence;
    try reflexivity; try discriminate.
Qed.

(** ** Reading a date back *)

Lemma match_ymd_split (s r1 : string) (y : N) :
  match_year s = Some (y, r1) →
  match_ymd s
  = match match_md r1 with
    | Some (m, d, r) => Some (y, m, d, r)
    | None => None
    end.
Proof.
  intros Hy. unfold match_ymd, match_md. rewrite Hy.
  destruct (dash r1) as [r2 |]; [| reflexivity].
  induction (alts_month r2) as [| [m r3] ms IH]; [reflexivity |].
  cbn [flat_map]. destruct (dash r3) as [r4 |]; [| exact IH].
  destruct (alts_day r4) as [| [d r5] ds]; [exact IH | reflexivity].
Qed.

Lemma match_year_more (s r : string) (y : N) :
  match_year s = Some (y, "") →
  match_year (s ++ r)%string = Some (y, r).
Proof.
  destruct s as [| a [| b [| c [| d rest]]]]; try discriminate.
  change ((String a (String b (String c (String d rest))) ++ r)%string)
    with (String a (String b (String c (String d (rest ++ r)%string)))).
  unfold match_year.
  destruct (digit_of a), (digit_of b), (digit_of c), (digit_of d);
    try discriminate.
  intros H. inversion H; subst. reflexivity.
Qed.

Lemma all_years_read_back :
  forallb year_reads_back (List.map N.of_nat (seq 0 (N.to_nat 10000))) = true.
Proof. vm_compute. reflexivity. Qed.

Lemma all_days_read_back :
  forallb day_reads_back
    (flat_map (fun m => List.map (fun d => (N.of_nat m, N.of_nat d)) (seq 1 31))
       (seq 1 12)) = true.
Proof. vm_compute. reflexivity. Qed.

Lemma year_text_reads_back (y : N) (r : string) :
  (y ≤ 9999)%N → match_year (fmt_d 4 y ++ r)%string = Some (y, r).
Proof.
  intros Hy. apply match_year_more.
  assert (Hin : In y (List.map N.of_nat (seq 0 (N.to_nat 10000)))).
  { apply in_map_iff. exists (N.to_nat y). split; [apply N2Nat.id |].
    apply in_seq. lia. }
  pose proof (proj1 (forallb_forall _ _) all_years_read_back y Hin) as Hc.
  unfold year_reads_back in Hc.
  destruct (match_year (fmt_d 4 y)) as [[y' [| ? ?]] |]; try discriminate.
  apply N.eqb_eq in Hc. subst. reflexivity.
Qed.

Lemma day_text_reads_back (m d : N) :
  (1 ≤ m ≤ 12)%N → (1 ≤ d ≤ 31)%N →
  match_md ("-" ++ fmt_d 2 m ++ "-" ++ fmt_d 2 d) = Some (m, d, "").
Proof.
  intros Hm Hd.
  assert (Hin : In (m, d)
                  (flat_map (fun m => List.map (fun d => (N.of_nat m, N.of_nat d))
                                        (seq 1 31)) (seq 1 12))).
  { apply in_flat_map. exists (N.to_nat m). split; [apply in_seq; lia |].
    apply in_map_iff. exists (N.to_nat d). split; [f_equal; lia |].
    apply in_seq. lia. }
  pose proof (proj1 (forallb_forall _ _) all_days_read_back (m, d) Hin) as Hc.
  unfold day_reads_back in Hc. cbn [fst snd] in Hc.
  destruct (match_md ("-" ++ fmt_d 2 m ++ "-" ++ fmt_d 2 d))
    as [[[m' d'] [| ? ?]] |]; try discriminate.
  apply andb_prop in Hc. destruct Hc as [Hm' Hd'].
  apply N.eqb_eq in Hm', Hd'. subst. reflexivity.
Qed.

Lemma days_in_month_le_31 (y m : N) : (days_in_month y m ≤ 31)%N.
Proof.
  unfold days_in_month.
  repeat match goal with
    | |- context [if ?b then _ else _] => destruct b
    end; lia.
Qed.

(** X20. A day written by [isoformat] is read back by [strptime]: for every day
    of the calendar, [strptime] of its text [YYYY-MM-DD] is that day at
    midnight, and [isoformat] of the result is the same text followed by
    [T00:00:00] ([T23:59:59.999999] once [main] has moved it to the end of
    the day). *)
Theorem strptime_reads_isoformat_back (y m d : N) :
  valid_date y m d →
  let day := mk_datetime y m d 0 0 0 0 in
  strptime (isoformat_date day) = Return day
  ∧ isoformat day = (isoformat_date day ++ "T00:00:00")%string
  ∧ isoformat (replace_time day 23 59 59 999999)
    = (isoformat_date day ++ "T23:59:59.999999")%string.
Proof.
  intros (Hy & Hm & Hd) day. subst day.
  split; [| split; [apply isoformat_midnight | apply isoformat_end_of_day]].
  pose proof (days_in_month_le_31 y m) as H31.
  unfold strptime, isoformat_date. cbn [year month day].
  rewrite (match_ymd_split _ ("-" ++ fmt_d 2 m ++ "-" ++ fmt_d 2 d) y)
    by (apply year_text_reads_back; lia).
  rewrite day_text_reads_back by lia.
  cbn [String.eqb negb].
  destruct (N.eqb_spec y 0); [lia |].
  destruct (N.ltb_spec (days_in_month y m) d); [lia |].
  reflexivity.
Qed.

(** ** The texts [strptime] accepts *)

Local Open Scope list_scope.










(** ** The theorems on scripted scenarios *)

(** the scenario [three_tasks], evaluated *)
Lemma three_tasks_run :
  run three_tasks built_self PNone PNone tt start_global
  = (Return three_tasks_summary, tt,
     {| proc := proc start_global; calls := three_tasks_calls |}).
Proof. vm_compute. reflexivity. Qed.

(** the query finds nothing in a window that has only an end *)
Lemma C2_no_records_witness :
  run (scripted (Return (VList [])) no_call no_call no_call no_call no_call)
      built_self PNone (PStr "2024-01-31") tt start_global
  = (Return {| analysis_success := false;
               tasks_created := VInt 0;
               errors := ["No machine records found in database for the specified period"];
               period_start := None;
               period_end := Some "2024-01-31" |},
     tt,
     {| proc := proc start_global;
        calls :=
          [{| ev_call := CallQueryTable (VObj 1) "downtime_detail" "*"
                           {[ "resolved_at.lte" := "2024-01-31" ]} 1000;
              ev_outcome := Return (VList []) |}] |}).
Proof.
  apply (C2_no_records_terminates
           (scripted (Return (VList [])) no_call no_call no_call no_call no_call)
           built_self PNone (PStr "2024-01-31") tt start_global
           (VObj 1) (VList []) (proc start_global));
    reflexivity.
Defined.

(** three records, and an analyzer that returns an empty dictionary *)
Lemma C3_analysis_gate_witness :
  run (scripted (Return (some_records 3)) (Return (VDict ∅))
         no_call no_call no_call no_call)
      built_self PNone PNone tt start_global
  = (Return {| analysis_success := false;
               tasks_created := VInt 0;
               errors := ["No results from machine clustering analysis"];
               period_start := None;
               period_end := None |},
     tt,
     {| proc := proc start_global;
        calls :=
          [{| ev_call := CallQueryTable (VObj 1) "downtime_detail" "*" ∅ 1000;
              ev_outcome := Return (some_records 3) |};
           {| ev_call := CallRunAnalysis (some_records 3);
              ev_outcome := Return (VDict ∅) |}] |}).
Proof.
  apply (C3_analysis_gate
           (scripted (Return (some_records 3)) (Return (VDict ∅))
              no_call no_call no_call no_call)
           built_self PNone PNone tt start_global
           (VObj 1) (VDict {[ "machine_id" := VStr "M-1" ]}) (VDict ∅)
           (replicate 2 (VDict {[ "machine_id" := VStr "M-1" ]}))
           (proc start_global) (proc start_global)
           eq_refl eq_refl eq_refl).
  reflexivity.
Defined.

(** three records, a result, and an interpreter that selects no machine *)
Lemma C4_no_machines_witness :
  run (scripted (Return (some_records 3)) (Return some_analysis)
         (Return (VList [])) no_call no_call no_call)
      built_self PNone PNone tt start_global
  = (Return {| analysis_success := true;
               tasks_created := VInt 0;
               errors := [];
               period_start := None;
               period_end := None |},
     tt,
     {| proc := proc start_global;
        calls :=
          [{| ev_call := CallQueryTable (VObj 1) "downtime_detail" "*" ∅ 1000;
              ev_outcome := Return (some_records 3) |};
           {| ev_call := CallRunAnalysis (some_records 3);
              ev_outcome := Return some_analysis |};
           {| ev_call := CallInterpretResults some_analysis;
              ev_outcome := Return (VList []) |}] |}).
Proof.
  apply (C4_no_machines_is_success
           (scripted (Return (some_records 3)) (Return some_analysis)
              (Return (VList [])) no_call no_call no_call)
           built_self PNone PNone tt start_global
           (VObj 1) (VDict {[ "machine_id" := VStr "M-1" ]}) some_analysis
           (VList [])
           (replicate 2 (VDict {[ "machine_id" := VStr "M-1" ]}))
           (proc start_global) (proc start_global) (proc start_global));
    reflexivity.
Defined.

(** the writer reports three tasks: one notification, with the machines *)
Lemma C5_three_tasks_witness :
  ∃ (s : Summary) (p' : Proc) (notified : list Event),
    run three_tasks built_self PNone PNone tt start_global
    = (Return s, tt,
       {| proc := p';
          calls :=
            [{| ev_call := CallQueryTable (VObj 1) "downtime_detail" "*" ∅ 1000;
                ev_outcome := Return (some_records 3) |};
             {| ev_call := CallRunAnalysis (some_records 3);
                ev_outcome := Return some_analysis |};
             {| ev_call := CallInterpretResults some_analysis;
                ev_outcome := Return (some_machines 2) |};
             {| ev_call := CallScheduleMaintenanceTasks (VObj 2) (some_machines 2);
                ev_outcome := Return (VObj 7) |};
             {| ev_call := CallWriteMaintenanceTasks (VObj 3) (VObj 7) (VObj 2);
                ev_outcome := Return (tasks_written 3) |}]
            ++ notified |})
    ∧ tasks_created s = VInt 3
    ∧ notified =
        [{| ev_call := CallSendNotifications (VObj 4) (some_machines 2);
            ev_outcome := Return VNone |}].
Proof.
  destruct (C5_tasks_created_and_notification three_tasks
              built_self PNone PNone tt start_global
              (VObj 1) (VObj 2) (VObj 3) (VObj 4)
              (VDict {[ "machine_id" := VStr "M-1" ]}) some_analysis
              (some_machines 2) (VObj 7)
              (replicate 2 (VDict {[ "machine_id" := VStr "M-1" ]}))
              {[ "tasks_created" := VInt 3 ]} 3%Z
              (proc start_global) (proc start_global) (proc start_global)
              (proc start_global) (proc start_global)
              eq_refl eq_refl eq_refl eq_refl eq_refl eq_refl eq_refl eq_refl
              eq_refl eq_refl eq_refl (or_introl eq_refl))
    as (res & p' & notified & Hrun & Hnot & Hres).
  rewrite three_tasks_run in Hrun. injection Hrun as Hr Hp Hevs.
  subst res. cbn beta iota in Hres.
  exists three_tasks_summary, (proc start_global), notified.
  rewrite three_tasks_run. rewrite <- Hevs.
  split; [reflexivity |]. split; [exact Hres | reflexivity].
Defined.



(** a timestamp for the start and a text for the end *)
Lemma C6_filter_rule_table_witness :
  build_filters (PDatetime (mk_datetime 2024 1 1 0 0 0 0)) (PStr "2024-01-31")
    !! "resolved_at.gte" = Some "2024-01-01T00:00:00"
  ∧ build_filters (PDatetime (mk_datetime 2024 1 1 0 0 0 0)) (PStr "2024-01-31")
      !! "resolved_at.lte" = Some "2024-01-31".
Proof.
  destruct C6_filter_rule_table as (_ & _ & _ & Hboth & _).
  destruct (Hboth (PDatetime (mk_datetime 2024 1 1 0 0 0 0))
              (PStr "2024-01-31") I ltac:(discriminate))
    as (_ & Hgte & Hlte).
  split; [exact Hgte | exact Hlte].
Defined.

(** the scenario of January 2024 with scripted collaborators *)
Lemma C7_end_to_end_witness :
  ∃ g' : Global,
    main (scripted (Return (some_records 50)) (Return some_analysis)
            (Return (some_machines 4)) (Return (VObj 7))
            (Return (tasks_written 4)) (Return VNone))
         (scripted_date_range (Raise (Exn "EOFError" "no terminal")))
         (scripted_args
            (Return {| start_date := Some "2024-01-01";
                       end_date := Some "2024-01-31"; mode := "args" |}))
         (VStr "https://db.example") (VStr "service-key") tt start_global
    = (Return (MainSummary
                 {| analysis_success := true;
                    tasks_created := VInt 4;
                    errors := [];
                    period_start := Some "2024-01-01T00:00:00";
                    period_end := Some "2024-01-31T23:59:59.999999" |}),
       tt, g').
Proof.
  set (p := {| environ := <["SUPABASE_KEY" := "service-key"]>
                            (<["SUPABASE_URL" := "https://db.example"]> ∅);
               world := tt |}).
  eexists.
  apply (C7_end_to_end_scenario
           (scripted (Return (some_records 50)) (Return some_analysis)
              (Return (some_machines 4)) (Return (VObj 7))
              (Return (tasks_written 4)) (Return VNone))
           (scripted_date_range (Raise (Exn "EOFError" "no terminal")))
           (scripted_args
              (Return {| start_date := Some "2024-01-01";
                         end_date := Some "2024-01-31"; mode := "args" |}))
           start_global "https://db.example" "service-key" "args"
           VNone (VObj 1) (VObj 2) (VObj 3) (VObj 4) some_analysis (VObj 7)
           (tasks_written 4) VNone VNone VNone VNone VNone VNone
           (replicate 50 (VDict {[ "machine_id" := VStr "M-1" ]}))
           (replicate 4 (VDict {[ "machine_id" := VStr "M-1" ]}))
           (proc start_global) (proc start_global)
           p p p p p p p p p p p p p p p);
    first [discriminate | reflexivity].
Defined.

(** the endpoint setting is [None]: a [ValueError], nothing built *)
Lemma C8_missing_setting_witness :
  ScheduledMaintenanceWorkflow
    (scripted no_call no_call no_call no_call no_call no_call)
    VNone (VStr "service-key") tt start_global
  = (Raise (Exn "ValueError"
              "SUPABASE_URL and SUPABASE_KEY must be set in settings"),
     tt, start_global).
Proof.
  destruct (C8_construction_all_or_nothing
              (scripted no_call no_call no_call no_call no_call no_call)
              VNone (VStr "service-key") tt start_global)
    as (o & p' & evs & Hrun & Hmissing & _).
  destruct (Hmissing (or_introl eq_refl)) as (Ho & Hevs & Hp).
  rewrite Hrun, Ho, Hevs, Hp. reflexivity.
Defined.

(** the analyzer returns nothing: no scheduling, writing or notification *)
Lemma C10_empty_gate_witness :
  ∃ (s : Summary) (p' : Proc) (evs : list Event),
    run (scripted (Return (some_records 3)) (Return VNone)
           no_call no_call no_call no_call)
        built_self PNone PNone tt start_global
    = (Return s, tt, {| proc := p'; calls := evs |})
    ∧ existsb acts evs = false.
Proof.
  destruct (C10_empty_gate_has_no_effects
              (scripted (Return (some_records 3)) (Return VNone)
                 no_call no_call no_call no_call)
              built_self PNone PNone tt start_global)
    as (res & p' & evs & Hrun & Hquiet).
  assert (Hc :
    run (scripted (Return (some_records 3)) (Return VNone)
           no_call no_call no_call no_call)
        built_self PNone PNone tt start_global
    = (Return {| analysis_success := false;
                 tasks_created := VInt 0;
                 errors := ["No results from machine clustering analysis"];
                 period_start := None;
                 period_end := None |},
       tt,
       {| proc := proc start_global;
          calls :=
            [{| ev_call := CallQueryTable (VObj 1) "downtime_detail" "*" ∅ 1000;
                ev_outcome := Return (some_records 3) |};
             {| ev_call := CallRunAnalysis (some_records 3);
                ev_outcome := Return VNone |}] |}))
    by (vm_compute; reflexivity).
  rewrite Hc in Hrun. injection Hrun as Hr Hp Hevs.
  cbn [calls start_global app] in Hevs. subst res evs.
  eexists _, _, _. split; [exact Hc |].
  apply Hquiet. reflexivity.
Defined.

(** ** The further properties on scripted scenarios *)

Lemma run_notifies_scheduled_machines_witness :
  ∃ a, In {| ev_call := CallInterpretResults a;
             ev_outcome := Return (some_machines 2) |} three_tasks_calls.
Proof.
  destruct (run_notifies_scheduled_machines three_tasks built_self PNone PNone
              tt start_global) as (res & p' & evs & Hrun & _ & Hflow).
  rewrite three_tasks_run in Hrun. injection Hrun as Hs Hp Hevs.
  cbn [calls start_global app] in Hevs. subst evs.
  destruct (Hflow (VObj 4) (some_machines 2) (Return VNone)) as (_ & Ha & _).
  - unfold three_tasks_calls. cbn [In]. do 5 right. left. reflexivity.
  - exact Ha.
Defined.

Lemma run_stages_are_chained_witness :
  ∃ machines,
    In {| ev_call := CallScheduleMaintenanceTasks (VObj 2) machines;
          ev_outcome := Return (VObj 7) |} three_tasks_calls.
Proof.
  destruct (run_stages_are_chained three_tasks built_self PNone PNone
              tt start_global)
    as (res & p' & evs & Hrun & _ & _ & _ & _ & Hwrite).
  rewrite three_tasks_run in Hrun. injection Hrun as Hs Hp Hevs.
  cbn [calls start_global app] in Hevs. subst evs.
  destruct (Hwrite (VObj 3) (VObj 7) (VObj 2) (Return (tasks_written 3)))
    as (_ & _ & Hsch).
  - unfold three_tasks_calls. cbn [In]. do 4 right. left. reflexivity.
  - exact Hsch.
Defined.

Lemma run_summary_is_coherent_witness :
  errors three_tasks_summary = [] ∧ analysis_success three_tasks_summary = true.
Proof.
  destruct (run_summary_is_coherent three_tasks built_self PNone PNone
              tt start_global) as (res & p' & evs & Hrun & Hres).
  rewrite three_tasks_run in Hrun. injection Hrun as Hs Hp Hevs. subst res.
  cbn beta iota in Hres. destruct Hres as (_ & Hclean & _).
  split; [reflexivity | apply Hclean; reflexivity].
Defined.





(** the scheduler's constructor fails: the writer and the notifier are not
    constructed *)
Lemma construction_calls_in_order_witness :
  ∃ (o : Outcome Self) (p' : Proc) (o1 : Outcome PyVal) (rest1 : list Event),
    ScheduledMaintenanceWorkflow
      (fun c p =>
         match c with
         | CallMaintenanceTaskScheduler _ =>
             (Raise (Exn "RuntimeError" "no schedule table"), p)
         | _ => three_tasks c p
         end)
      (VStr "https://db.example") (VStr "service-key") tt start_global
    = (o, tt,
       {| proc := p';
          calls := {| ev_call := CallSupabaseClient; ev_outcome := o1 |}
                   :: rest1 |})
    ∧ ∀ d, o1 = Return d →
           ∃ o2 rest2,
             rest1 = {| ev_call := CallMaintenanceTaskScheduler d;
                        ev_outcome := o2 |} :: rest2
             ∧ ∀ e, o2 = Raise e → o = Raise e ∧ rest2 = [].
Proof.
  destruct (construction_calls_in_order
              (fun c p =>
                 match c with
                 | CallMaintenanceTaskScheduler _ =>
                     (Raise (Exn "RuntimeError" "no schedule table"), p)
                 | _ => three_tasks c p
                 end)
              "https://db.example" "service-key" tt start_global
              ltac:(discriminate) eq_refl ltac:(discriminate) eq_refl)
    as (o & p' & o1 & rest1 & Hrun & Hres).
  exists o, p', o1, rest1. split; [exact Hrun |].
  intros d ->. destruct Hres as (o2 & rest2 & -> & Hres).
  exists o2, rest2. split; [reflexivity |].
  intros e ->. exact Hres.
Defined.

Lemma construction_client_sees_settings_witness :
  ∃ (o : Outcome Self) (p' : Proc) (o1 : Outcome PyVal) (p1 : Proc)
    (later : list Event),
    three_tasks CallSupabaseClient
      {| environ := <["SUPABASE_KEY" := "service-key"]>
                      (<["SUPABASE_URL" := "https://db.example"]> ∅);
         world := tt |} = (o1, p1)
    ∧ ScheduledMaintenanceWorkflow three_tasks
        (VStr "https://db.example") (VStr "service-key") tt start_global
      = (o, tt,
         {| proc := p';
            calls := {| ev_call := CallSupabaseClient; ev_outcome := o1 |}
                     :: later |}).
Proof.
  apply (construction_client_sees_settings three_tasks
           "https://db.example" "service-key" tt start_global);
    first [discriminate | reflexivity].
Defined.



(** the end date is 30 February *)
Lemma main_rejects_bad_date_witness :
  main three_tasks (scripted_date_range (Raise (Exn "EOFError" "no terminal")))
       (scripted_args
          (Return {| start_date := Some "01/02/2024";
                     end_date := Some "2024-02-29"; mode := "args" |}))
       (VStr "https://db.example") (VStr "service-key") tt start_global
  = (Return
       (MainFailed
          "time data '01/02/2024' does not match format '%Y-%m-%d'"),
     tt,
     {| proc := proc start_global;
        calls :=
          [{| ev_call := CallParseArgs;
              ev_outcome :=
                Return (args_value
                          {| start_date := Some "01/02/2024";
                             end_date := Some "2024-02-29"; mode := "args" |}) |};
           {| ev_call := CallImportDateSelector;
              ev_outcome := Return VNone |};
           {| ev_call :=
                CallPrint
                  (PrintFailure
                     "time data '01/02/2024' does not match format '%Y-%m-%d'");
              ev_outcome := Return VNone |}] |}).
Proof.
  assert (Hbad : strptime "01/02/2024"
                 = Raise (Exn "ValueError"
                            "time data '01/02/2024' does not match format '%Y-%m-%d'"))
    by (vm_compute; reflexivity).
  exact (main_rejects_bad_date three_tasks
           (scripted_date_range (Raise (Exn "EOFError" "no terminal")))
           (scripted_args
              (Return {| start_date := Some "01/02/2024";
                         end_date := Some "2024-02-29"; mode := "args" |}))
           (VStr "https://db.example") (VStr "service-key") start_global
           "01/02/2024" "2024-02-29" "args"
           (Exn "ValueError"
              "time data '01/02/2024' does not match format '%Y-%m-%d'")
           VNone VNone
           (proc start_global) (proc start_global) (proc start_global)
           ltac:(discriminate) ltac:(discriminate) eq_refl eq_refl
           eq_refl eq_refl (or_introl Hbad) eq_refl).
Defined.

(** the credential is the empty text *)
Lemma main_settings_missing_witness :
  main three_tasks (scripted_date_range (Raise (Exn "EOFError" "no terminal")))
       (scripted_args
          (Return {| start_date := Some "2024-01-01";
                     end_date := Some "2024-01-31"; mode := "args" |}))
       (VStr "https://db.example") (VStr "") tt start_global
  = (Return (MainFailed "SUPABASE_URL and SUPABASE_KEY must be set in settings"),
     tt,
     {| proc := proc start_global;
        calls :=
          [{| ev_call := CallParseArgs;
              ev_outcome :=
                Return (args_value
                          {| start_date := Some "2024-01-01";
                             end_date := Some "2024-01-31"; mode := "args" |}) |};
           {| ev_call := CallImportDateSelector;
              ev_outcome := Return VNone |};
           {| ev_call :=
                CallPrint
                  (PrintFailure
                     "SUPABASE_URL and SUPABASE_KEY must be set in settings");
              ev_outcome := Return VNone |}] |}).
Proof.
  exact (main_settings_missing three_tasks
           (scripted_date_range (Raise (Exn "EOFError" "no terminal")))
           (scripted_args
              (Return {| start_date := Some "2024-01-01";
                         end_date := Some "2024-01-31"; mode := "args" |}))
           (VStr "https://db.example") (VStr "") start_global
           "2024-01-01" "2024-01-31" "args"
           (mk_datetime 2024 1 1 0 0 0 0) (mk_datetime 2024 1 31 0 0 0 0)
           VNone VNone
           (proc start_global) (proc start_global) (proc start_global)
           ltac:(discriminate) ltac:(discriminate) eq_refl eq_refl
           strptime_2024_01_01 strptime_2024_01_31 (or_intror eq_refl)
           eq_refl).
Defined.



(** February of a leap year, with the month written without its zero *)
Lemma main_window_is_whole_days_witness :
  ∃ (res : Outcome MainResult) (p' : Proc) (evs : list Event),
    main three_tasks (scripted_date_range (Raise (Exn "EOFError" "no terminal")))
         (scripted_args
            (Return {| start_date := Some "2024-2-1";
                       end_date := Some "2024-02-29"; mode := "args" |}))
         (VStr "https://db.example") (VStr "service-key") tt start_global
    = (res, tt, {| proc := p'; calls := evs |})
    ∧ (∀ s, res = Return (MainSummary s) →
         period_start s = Some "2024-02-01T00:00:00"
         ∧ period_end s = Some "2024-02-29T23:59:59.999999").
Proof.
  assert (H1 : strptime "2024-2-1" = Return (mk_datetime 2024 2 1 0 0 0 0))
    by (vm_compute; reflexivity).
  assert (H2 : strptime "2024-02-29" = Return (mk_datetime 2024 2 29 0 0 0 0))
    by (vm_compute; reflexivity).
  destruct (main_window_is_whole_days three_tasks
              (scripted_date_range (Raise (Exn "EOFError" "no terminal")))
              (scripted_args
                 (Return {| start_date := Some "2024-2-1";
                            end_date := Some "2024-02-29"; mode := "args" |}))
              (VStr "https://db.example") (VStr "service-key") start_global
              "2024-2-1" "2024-02-29" "args"
              (mk_datetime 2024 2 1 0 0 0 0) (mk_datetime 2024 2 29 0 0 0 0)
              (proc start_global)
              ltac:(discriminate) ltac:(discriminate) eq_refl H1 H2)
    as (res & p' & evs & Hrun & Hecho & _).
  exists res, p', evs. split; [exact Hrun |].
  intros s Hs. destruct (Hecho s Hs) as (Hstart & Hend).
  split; [rewrite Hstart | rewrite Hend]; vm_compute; reflexivity.
Defined.

(** the terminal is closed when the summary is to be printed *)
Lemma main_print_failure_hides_run_witness :
  ∃ g' : Global,
    main terminal_closed
         (scripted_date_range (Raise (Exn "EOFError" "no terminal")))
         (scripted_args
            (Return {| start_date := Some "2024-01-01";
                       end_date := Some "2024-01-31"; mode := "args" |}))
         (VStr "https://db.example") (VStr "service-key") tt start_global
    = (Return (MainFailed "[Errno 32] Broken pipe"), tt, g')
    ∧ existsb (fun ev => is_notify (ev_call ev) && negb (raised ev)) (calls g')
      = true.
Proof.
  set (ext := terminal_closed).
  set (args := {| start_date := Some "2024-01-01";
                  end_date := Some "2024-01-31"; mode := "args" |}).
  set (imported :=
         {| proc := proc start_global;
            calls := calls start_global ++
              [{| ev_call := CallParseArgs;
                  ev_outcome := Return (args_value args) |};
               {| ev_call := CallImportDateSelector;
                  ev_outcome := Return VNone |}] |}).
  set (g1 := snd (ScheduledMaintenanceWorkflow ext (VStr "https://db.example")
                    (VStr "service-key") tt imported)).
  set (g2 := snd (run ext built_self
                    (PDatetime (mk_datetime 2024 1 1 0 0 0 0))
                    (PDatetime
                       (replace_time (mk_datetime 2024 1 31 0 0 0 0)
                          23 59 59 999999)) tt g1)).
  assert (Hc : ScheduledMaintenanceWorkflow ext (VStr "https://db.example")
                 (VStr "service-key") tt imported
               = (Return built_self, tt, g1))
    by (vm_compute; reflexivity).
  assert (Hr : run ext built_self
                 (PDatetime (mk_datetime 2024 1 1 0 0 0 0))
                 (PDatetime
                    (replace_time (mk_datetime 2024 1 31 0 0 0 0)
                       23 59 59 999999)) tt g1
               = (Return {| analysis_success := true;
                            tasks_created := VInt 3;
                            errors := [];
                            period_start := Some "2024-01-01T00:00:00";
                            period_end := Some "2024-01-31T23:59:59.999999" |},
                  tt, g2))
    by (vm_compute; reflexivity).
  assert (Hp : ext (CallPrint PrintSummaryHeader) (proc g2)
               = (Raise (Exn "BrokenPipeError" "[Errno 32] Broken pipe"),
                  proc g2))
    by reflexivity.
  assert (Hn : existsb (fun ev => is_notify (ev_call ev) && negb (raised ev))
                 (calls g2) = true)
    by (vm_compute; reflexivity).
  eexists. split.
  - exact (main_print_failure_hides_run ext
             (scripted_date_range (Raise (Exn "EOFError" "no terminal")))
             (scripted_args (Return args))
             (VStr "https://db.example") (VStr "service-key")
             start_global g1 g2
             "2024-01-01" "2024-01-31" "args"
             (mk_datetime 2024 1 1 0 0 0 0) (mk_datetime 2024 1 31 0 0 0 0)
             built_self _
             (Exn "BrokenPipeError" "[Errno 32] Broken pipe")
             VNone VNone
             (proc start_global) (proc start_global) (proc g2) (proc g2)
             ltac:(discriminate) ltac:(discriminate) eq_refl eq_refl
             strptime_2024_01_01 strptime_2024_01_31 Hc Hr Hp eq_refl
             eq_refl).
  - cbn [calls]. rewrite existsb_app, Hn. reflexivity.
Defined.

(** 29 February 2024 *)
Lemma strptime_reads_isoformat_back_witness :
  strptime "2024-02-29" = Return (mk_datetime 2024 2 29 0 0 0 0).
Proof.
  assert (Hv : valid_date 2024 2 29) by (vm_compute; intuition discriminate).
  exact (proj1 (strptime_reads_isoformat_back 2024 2 29 Hv)).
Defined.


